(** * MCNP Universe & Lattice Wizard

    A shallow embedding of [mcnp_wizard.py]: the lattice index
    specification ([LatticeSpec]), the nodes of the universe stack
    ([Node]), the path builder of [MCNPWizard] and the key-driven grid
    selector ([VisualLatticeSelector]), followed by the properties
    proved about them.

    Python integers are [Z]; [Optional[T]] is [option T]; a Python
    [set] of (i, j, k) tuples is a [gset] of triples; a raised exception
    is the [None] of an [option] result. *)

From Stdlib Require Import ZArith String Ascii DecimalString DecimalPos DecimalZ.
From stdpp Require Import gmap strings list sorting.

#[local] Open Scope Z_scope.

(** ** Python built-ins used by the program *)

(** [str(n)] for an integer: the decimal numeral, with a leading minus
    sign for negative numbers. *)
Definition str (n : Z) : string := NilZero.string_of_int (Z.to_int n).

(** [str(x)] for an [Optional[int]]: [None] prints as the word None. *)
Definition str_opt (x : option Z) : string :=
  match x with
  | Some n => str n
  | None => "None"
  end.

(** [sep.join(parts)]. *)
Definition join (sep : string) (parts : list string) : string :=
  String.concat sep parts.

(** [ord(c)]. *)
Definition ord (c : ascii) : Z := Z.of_N (N_of_ascii c).

(** [range(lo, hi)]: the integers [lo], ..., [hi - 1]; empty when
    [hi <= lo]. *)
Definition range (lo hi : Z) : list Z := seqZ lo (hi - lo).

(** [min(x :: xs)] and [max(x :: xs)].  Python raises [ValueError] on an
    empty sequence; the program only calls them on the coordinates of a
    selection it has just tested to be non-empty, so the first element is
    passed apart. *)
Definition py_min (x : Z) (xs : list Z) : Z := foldl Z.min x xs.
Definition py_max (x : Z) (xs : list Z) : Z := foldl Z.max x xs.

(** A lattice position, the tuple [(i, j, k)]. *)
Definition cell : Type := Z * Z * Z.

Definition cell_i (c : cell) : Z := c.1.1.
Definition cell_j (c : cell) : Z := c.1.2.
Definition cell_k (c : cell) : Z := c.2.

(** Python's order on tuples: lexicographic, first component first. *)
Definition cell_le (a b : cell) : Prop :=
  cell_i a < cell_i b ∨
  (cell_i a = cell_i b ∧
   (cell_j a < cell_j b ∨ (cell_j a = cell_j b ∧ cell_k a ≤ cell_k b))).

Definition cell_lt (a b : cell) : Prop :=
  cell_i a < cell_i b ∨
  (cell_i a = cell_i b ∧
   (cell_j a < cell_j b ∨ (cell_j a = cell_j b ∧ cell_k a < cell_k b))).

#[global] Instance cell_le_dec : RelDecision cell_le.
Proof. intros a b. unfold cell_le. apply _. Defined.

#[global] Instance cell_lt_dec : RelDecision cell_lt.
Proof. intros a b. unfold cell_lt. apply _. Defined.

(** [sorted(cells)]: the list in ascending tuple order (Python sorts by
    merging runs). *)
Definition sorted (cells : list cell) : list cell := merge_sort cell_le cells.

(** ** LatticeSpec *)

(** One dimension of a contiguous spec, [Union[int, Tuple[int, int]]]:
    [Single n] is the integer [n], [Range lo hi] the tuple [(lo, hi)]. *)
Inductive Dimension : Type :=
  | Single (n : Z)
  | Range (lo hi : Z).

Module LatticeSpec.

(** The dataclass: all four fields default to [None], and the generated
    constructor stores its arguments unchecked. *)
Record t : Type := mk {
  i : option Dimension;
  j : option Dimension;
  k : option Dimension;
  elements : option (list cell)
}.

Definition is_contiguous (self : t) : bool :=
  match elements self with
  | None => true
  | Some _ => false
  end.

Definition is_non_contiguous (self : t) : bool :=
  match elements self with
  | None => false
  | Some _ => true
  end.

(** [isinstance(val, tuple)] selects the range form; everything else,
    [None] included, goes through [str]. *)
Definition format_dimension (val : option Dimension) : string :=
  match val with
  | Some (Range lo hi) => str lo +:+ ":" +:+ str hi
  | Some (Single n) => str n
  | None => "None"
  end.

Definition to_mcnp_string (self : t) : string :=
  if is_contiguous self then
    let i_str := format_dimension (i self) in
    let j_str := format_dimension (j self) in
    let k_str := format_dimension (k self) in
    "[" +:+ i_str +:+ " " +:+ j_str +:+ " " +:+ k_str +:+ "]"
  else
    match elements self with
    | Some ((ei, ej, ek) :: rest) =>
        "[" +:+ str ei +:+ " " +:+ str ej +:+ " " +:+ str ek +:+ "] (+"
            +:+ str (Z.of_nat (length ((ei, ej, ek) :: rest)) - 1) +:+ " more)"
    | _ => "[empty]"
    end.

Definition to_mcnp_single_index (element : cell) : string :=
  "[" +:+ str (cell_i element) +:+ " " +:+ str (cell_j element) +:+ " "
      +:+ str (cell_k element) +:+ "]".

Definition get_all_elements (self : t) : list cell :=
  match elements self with
  | Some els => els
  | None => []
  end.

Definition is_int (val : option Dimension) : bool :=
  match val with
  | Some (Single _) => true
  | _ => false
  end.

Definition is_single_element (self : t) : bool :=
  match elements self with
  | None => forallb is_int [i self; j self; k self]
  | Some els => bool_decide (length els = 1%nat)
  end.

(** The local helper of [element_count]. *)
Definition get_size (val : option Dimension) : Z :=
  match val with
  | Some (Range lo hi) => hi - lo + 1
  | _ => 1
  end.

Definition element_count (self : t) : Z :=
  match elements self with
  | Some els => Z.of_nat (length els)
  | None => get_size (i self) * get_size (j self) * get_size (k self)
  end.

End LatticeSpec.

(** [LatticeSpec(i=di, j=dj, k=dk)]: the contiguous form. *)
Definition Contiguous (di dj dk : Dimension) : LatticeSpec.t :=
  LatticeSpec.mk (Some di) (Some dj) (Some dk) None.

(** [LatticeSpec(elements=els)]: the discrete (non-contiguous) form. *)
Definition Discrete (els : list cell) : LatticeSpec.t :=
  LatticeSpec.mk None None None (Some els).

(** ** Node *)

Module Node.

(** One level of the universe stack.  The [transform] field (a numpy
    array kept for later use) is read by none of the functions below and
    is left out. *)
Record t : Type := mk {
  cell_id : Z;
  universe_id : option Z;
  fill_id : option Z;
  is_lattice : bool;
  is_infinite_lattice : bool;
  lattice_spec : option LatticeSpec.t;
  lattice_type : option Z;
  lattice_bounds : option ((Z * Z) * (Z * Z) * (Z * Z))
}.

(** The property [lattice_index], kept for the old single-index format:
    the three fields [i], [j], [k] of a single-element spec. *)
Definition lattice_index (self : t)
  : option (option Dimension * option Dimension * option Dimension) :=
  match lattice_spec self with
  | Some spec =>
      if LatticeSpec.is_single_element spec
      then Some (LatticeSpec.i spec, LatticeSpec.j spec, LatticeSpec.k spec)
      else None
  | None => None
  end.

End Node.

(** ** MCNPWizard: the path builder *)

Module MCNPWizard.

Record t : Type := mk {
  universe_stack : list Node.t;
  target_cell : option Z
}.

(** The test [node.is_lattice and node.lattice_spec and
    node.lattice_spec.is_non_contiguous()]; a spec object is truthy
    whenever it is present. *)
Definition non_contiguous_lattice (node : Node.t) : bool :=
  Node.is_lattice node &&
  match Node.lattice_spec node with
  | Some spec => LatticeSpec.is_non_contiguous spec
  | None => false
  end.

Definition _has_non_contiguous_lattice (self : t) : bool :=
  existsb non_contiguous_lattice (universe_stack self).

(** The string one node of [universe_stack[1:]] appends to [parts]. *)
Definition node_part (lattice_element : option cell) (node : Node.t) : string :=
  match Node.is_lattice node, Node.lattice_spec node with
  | true, Some spec =>
      match LatticeSpec.is_non_contiguous spec, lattice_element with
      | true, Some element =>
          str (Node.cell_id node) +:+ LatticeSpec.to_mcnp_single_index element
      | _, _ =>
          if LatticeSpec.is_contiguous spec
          then str (Node.cell_id node) +:+ LatticeSpec.to_mcnp_string spec
          else str (Node.cell_id node)
      end
  | _, _ => str (Node.cell_id node)
  end.

(** The list [parts] at the end of [_build_single_path]; [None] is the
    [IndexError] of [universe_stack[0]] on an empty stack. *)
Definition single_path_parts (self : t) (lattice_element : option cell)
  : option (list string) :=
  match universe_stack self with
  | [] => None
  | target :: above =>
      Some (foldl (λ parts node, parts ++ [node_part lattice_element node])
                  [str (Node.cell_id target)] above)
  end.

Definition _build_single_path (self : t) (lattice_element : option cell)
  : option string :=
  join " < " <$> single_path_parts self lattice_element.

(** [None] stands for an exception: the [IndexError] of
    [_build_single_path], or the attribute error of a node without a
    spec (which the search never returns). *)
Definition _build_union_paths (self : t) : option string :=
  match find non_contiguous_lattice (universe_stack self) with
  | None => _build_single_path self None
  | Some non_contiguous_node =>
      spec ← Node.lattice_spec non_contiguous_node;
      let elements := LatticeSpec.get_all_elements spec in
      paths ← mapM (λ element,
                 single_path ← _build_single_path self (Some element);
                 Some ("( " +:+ single_path +:+ " )")) elements;
      let union := join " " paths in
      Some ("( " +:+ union +:+ " )")
  end.

Definition _build_tally_path (self : t) : option string :=
  match universe_stack self with
  | [] => Some ("( " +:+ str_opt (target_cell self) +:+ " )")
  | _ :: _ =>
      if _has_non_contiguous_lattice self then _build_union_paths self
      else
        path ← _build_single_path self None;
        Some ("( " +:+ path +:+ " )")
  end.

Definition _check_needs_sd_card (self : t) : bool :=
  if bool_decide (1 < length (universe_stack self))%nat
  then existsb Node.is_lattice (drop 1 (universe_stack self))
  else false.

(** The SI and SP cards [_generate_sdef_output] prints for the
    distribution number [dist_num] the operator entered (the prompts and
    the SDEF card with its optional position and energy are left out).
    [None] stands for an exception, as in [_build_union_paths]. *)
Definition si_sp_cards (self : t) (dist_num : Z) : option (string * string) :=
  if _has_non_contiguous_lattice self then
    non_contiguous_node ← find non_contiguous_lattice (universe_stack self);
    spec ← Node.lattice_spec non_contiguous_node;
    let elements := LatticeSpec.get_all_elements spec in
    let num_elements := length elements in
    paths ← mapM (λ element,
               single_path ← _build_single_path self (Some element);
               Some ("(" +:+ single_path +:+ ")")) elements;
    let si_card :=
      foldl (λ si_card path, si_card +:+ " " +:+ path)
            ("SI" +:+ str dist_num +:+ " L") paths in
    let sp_values := join " " (replicate num_elements "1") in
    let sp_card := "SP" +:+ str dist_num +:+ " " +:+ sp_values in
    Some (si_card, sp_card)
  else
    path_string ← _build_tally_path self;
    let si_card := "SI" +:+ str dist_num +:+ " L " +:+ path_string in
    let sp_card := "SP" +:+ str dist_num +:+ " 1" in
    Some (si_card, sp_card).

(** The size guard of the visual selector.  It asks the operator (through
    [_get_yes_no]) at most once; [answer] is what the operator replies. *)
Definition _validate_visual_selector_size
    (bounds : (Z * Z) * (Z * Z) * (Z * Z)) (answer : bool) : bool :=
  let '(i_range, j_range, k_range) := bounds in
  let i_size := i_range.2 - i_range.1 + 1 in
  let j_size := j_range.2 - j_range.1 + 1 in
  let k_size := k_range.2 - k_range.1 + 1 in
  let cells_per_layer := i_size * j_size in
  let total_cells := cells_per_layer * k_size in
  let MAX_CELLS_PER_LAYER := 400 in
  let MAX_TOTAL_CELLS := 2000 in
  if MAX_CELLS_PER_LAYER <? cells_per_layer then answer
  else if MAX_TOTAL_CELLS <? total_cells then answer
  else true.

End MCNPWizard.

(** ** VisualLatticeSelector: the grid selector *)

(** Key codes of the curses library for the four arrow keys. *)
Definition KEY_DOWN : Z := 258.
Definition KEY_UP : Z := 259.
Definition KEY_LEFT : Z := 260.
Definition KEY_RIGHT : Z := 261.

Module VisualLatticeSelector.

Record t : Type := mk {
  lattice_type : Z;
  is_infinite : bool;
  i_bounds : Z * Z;
  j_bounds : Z * Z;
  k_bounds : Z * Z;
  current_k : Z;
  cursor_i : Z;
  cursor_j : Z;
  selected : gset cell
}.

(** The constructor: cursor and layer start at the midpoints ([//] is
    floor division, as [Z.div] by a positive number). *)
Definition __init__ (lattice_type : Z) (bounds : (Z * Z) * (Z * Z) * (Z * Z))
    (is_infinite : bool) : t :=
  let '(i_bounds, j_bounds, k_bounds) := bounds in
  {| lattice_type := lattice_type;
     is_infinite := is_infinite;
     i_bounds := i_bounds;
     j_bounds := j_bounds;
     k_bounds := k_bounds;
     current_k := (k_bounds.1 + k_bounds.2) `div` 2;
     cursor_i := (i_bounds.1 + i_bounds.2) `div` 2;
     cursor_j := (j_bounds.1 + j_bounds.2) `div` 2;
     selected := ∅ |}.

(** Assignments to the attributes the loop writes. *)
Definition set_cursor (self : t) (new_i new_j : Z) : t :=
  {| lattice_type := lattice_type self; is_infinite := is_infinite self;
     i_bounds := i_bounds self; j_bounds := j_bounds self;
     k_bounds := k_bounds self; current_k := current_k self;
     cursor_i := new_i; cursor_j := new_j; selected := selected self |}.

Definition set_current_k (self : t) (new_k : Z) : t :=
  {| lattice_type := lattice_type self; is_infinite := is_infinite self;
     i_bounds := i_bounds self; j_bounds := j_bounds self;
     k_bounds := k_bounds self; current_k := new_k;
     cursor_i := cursor_i self; cursor_j := cursor_j self;
     selected := selected self |}.

Definition set_selected (self : t) (sel : gset cell) : t :=
  {| lattice_type := lattice_type self; is_infinite := is_infinite self;
     i_bounds := i_bounds self; j_bounds := j_bounds self;
     k_bounds := k_bounds self; current_k := current_k self;
     cursor_i := cursor_i self; cursor_j := cursor_j self;
     selected := sel |}.

(** Offset coordinates, odd rows shifted right.  Python's [%] takes the
    sign of the divisor, as [Z.modulo] does. *)
Definition _get_hex_neighbor (i j : Z) (direction : string) : Z * Z :=
  let is_odd_row := (j `mod` 2 =? 1) in
  if String.eqb direction "E" then (i + 1, j)
  else if String.eqb direction "W" then (i - 1, j)
  else if String.eqb direction "NE" then
    if is_odd_row then (i + 1, j - 1) else (i, j - 1)
  else if String.eqb direction "NW" then
    if is_odd_row then (i, j - 1) else (i - 1, j - 1)
  else if String.eqb direction "SE" then
    if is_odd_row then (i + 1, j + 1) else (i, j + 1)
  else if String.eqb direction "SW" then
    if is_odd_row then (i, j + 1) else (i - 1, j + 1)
  else (i, j).

(** The hexagonal move every key branch of [run] repeats: take the
    neighbour, and move the cursor only if it lies within the bounds. *)
Definition hex_move (self : t) (direction : string) : t :=
  let '(new_i, new_j) :=
    _get_hex_neighbor (cursor_i self) (cursor_j self) direction in
  if ((i_bounds self).1 <=? new_i) && (new_i <=? (i_bounds self).2)
     && ((j_bounds self).1 <=? new_j) && (new_j <=? (j_bounds self).2)
  then set_cursor self new_i new_j
  else self.

(** Space / Enter: toggle the cell under the cursor. *)
Definition toggle (self : t) : t :=
  let cell := (cursor_i self, cursor_j self, current_k self) in
  if bool_decide (cell ∈ selected self)
  then set_selected self (selected self ∖ {[cell]})
  else set_selected self ({[cell]} ∪ selected self).

(** The key [a]: three nested loops adding every cell of the bounds. *)
Definition select_all (self : t) : t :=
  set_selected self
    (foldl (λ sel i,
       foldl (λ sel j,
         foldl (λ sel k, {[(i, j, k)]} ∪ sel) sel
               (range (k_bounds self).1 ((k_bounds self).2 + 1))) sel
             (range (j_bounds self).1 ((j_bounds self).2 + 1)))
       (selected self)
       (range (i_bounds self).1 ((i_bounds self).2 + 1))).

(** The bounding box of a non-empty list of cells, as both functions
    below compute it: [(i_min, i_max), (j_min, j_max), (k_min, k_max)]. *)
Definition bounding_box (cell0 : cell) (cells : list cell)
  : (Z * Z) * (Z * Z) * (Z * Z) :=
  let i_vals := cell_i <$> cells in
  let j_vals := cell_j <$> cells in
  let k_vals := cell_k <$> cells in
  ((py_min (cell_i cell0) i_vals, py_max (cell_i cell0) i_vals),
   (py_min (cell_j cell0) j_vals, py_max (cell_j cell0) j_vals),
   (py_min (cell_k cell0) k_vals, py_max (cell_k cell0) k_vals)).

Definition _is_selection_contiguous (self : t) : bool :=
  match elements (selected self) with
  | [] => true
  | [_] => true
  | cell0 :: cells =>
      let '((i_min, i_max), (j_min, j_max), (k_min, k_max)) :=
        bounding_box cell0 cells in
      let expected_count :=
        (i_max - i_min + 1) * (j_max - j_min + 1) * (k_max - k_min + 1) in
      let actual_count := Z.of_nat (size (selected self)) in
      if expected_count =? actual_count then
        forallb (λ i,
          forallb (λ j,
            forallb (λ k, bool_decide ((i, j, k) ∈ selected self))
                    (range k_min (k_max + 1)))
                  (range j_min (j_max + 1)))
                (range i_min (i_max + 1))
      else false
  end.

(** The local helper of [_create_lattice_spec]. *)
Definition make_spec_dim (min_val max_val : Z) : Dimension :=
  if min_val =? max_val then Single min_val else Range min_val max_val.

(** [None] is the value the function returns for an empty selection. *)
Definition _create_lattice_spec (self : t) : option LatticeSpec.t :=
  match elements (selected self) with
  | [] => None
  | cell0 :: cells =>
      let is_contiguous := _is_selection_contiguous self in
      if is_contiguous then
        let '((i_min, i_max), (j_min, j_max), (k_min, k_max)) :=
          bounding_box cell0 cells in
        Some (LatticeSpec.mk (Some (make_spec_dim i_min i_max))
                             (Some (make_spec_dim j_min j_max))
                             (Some (make_spec_dim k_min k_max))
                             None)
      else
        let elements_list := sorted (cell0 :: cells) in
        Some (LatticeSpec.mk None None None (Some elements_list))
  end.

(** What one key does to the loop of [run]. *)
Inductive action : Type :=
  | Return (result : option LatticeSpec.t)
  | ErrorPause
  | Continue (self' : t).

(** The [if]/[elif] chain of the loop body, in source order. *)
Definition on_key (self : t) (key : Z) : action :=
  let hex := (lattice_type self =? 2) in
  if (key =? ord "q") || (key =? 27) then Return None
  else if (key =? ord "010") || (key =? ord " ") then Continue (toggle self)
  else if key =? ord "d" then
    if negb (bool_decide (size (selected self) = 0%nat))
    then Return (_create_lattice_spec self)
    else ErrorPause
  else if key =? KEY_UP then
    if hex then Continue (hex_move self "NW")
    else Continue (set_cursor self (cursor_i self)
                     (Z.max (j_bounds self).1 (cursor_j self - 1)))
  else if key =? KEY_DOWN then
    if hex then Continue (hex_move self "SE")
    else Continue (set_cursor self (cursor_i self)
                     (Z.min (j_bounds self).2 (cursor_j self + 1)))
  else if key =? KEY_LEFT then
    if hex then Continue (hex_move self "W")
    else Continue (set_cursor self
                     (Z.max (i_bounds self).1 (cursor_i self - 1))
                     (cursor_j self))
  else if key =? KEY_RIGHT then
    if hex then Continue (hex_move self "E")
    else Continue (set_cursor self
                     (Z.min (i_bounds self).2 (cursor_i self + 1))
                     (cursor_j self))
  else if (key =? ord "e") && hex then Continue (hex_move self "NE")
  else if (key =? ord "w") && hex then Continue (hex_move self "NW")
  else if (key =? ord "x") && hex then Continue (hex_move self "SE")
  else if (key =? ord "z") && hex then Continue (hex_move self "SW")
  else if (key =? ord "[") || (key =? ord ",") || (key =? ord "<") then
    Continue (set_current_k self (Z.max (k_bounds self).1 (current_k self - 1)))
  else if (key =? ord "]") || (key =? ord ".") || (key =? ord ">") then
    Continue (set_current_k self (Z.min (k_bounds self).2 (current_k self + 1)))
  else if key =? ord "a" then Continue (select_all self)
  else if (key =? ord "c") && negb hex then Continue (set_selected self ∅)
  else if key =? ord "r" then Continue (set_selected self ∅)
  else Continue self.

(** How a run over a finite sequence of key presses ends: the loop
    returned, or it waits in [getch] for a key that has not come. *)
Inductive outcome : Type :=
  | Returned (result : option LatticeSpec.t) (final : t)
  | Waiting (current : t).

(** The loop of [run], fed the keys [getch] delivers.  After the
    no-cells-selected message the loop reads one more key and drops it.
    Drawing the interface reads the selector and never writes it; it is
    left out. *)
Fixpoint run (self : t) (keys : list Z) : outcome :=
  match keys with
  | [] => Waiting self
  | key :: rest =>
      match on_key self key with
      | Return result => Returned result self
      | ErrorPause =>
          match rest with
          | [] => Waiting self
          | _ :: rest' => run self rest'
          end
      | Continue self' => run self' rest
      end
  end.

End VisualLatticeSelector.

(** * Vocabulary of the properties

    The predicates the statements below are written with, and the
    stacks and selectors of the worked examples. *)

(** Reading a decimal numeral back: the inverse of [str]. *)
Definition int_of_str (s : string) : option Z :=
  Z.of_int <$> NilZero.int_of_string s.

(** The characters of a string. *)
Definition chars (s : string) : list ascii := list_ascii_of_string s.

(** A string in which no comma occurs. *)
Definition comma_free (s : string) : Prop := ","%char ∉ chars s.

(** The number of indices one axis of a contiguous spec spans. *)
Definition span (d : Dimension) : Z :=
  match d with
  | Single _ => 1
  | Range lo hi => hi - lo + 1
  end.

(** One hexagonal move from the position [p]. *)
Definition hex_step (p : Z * Z) (direction : string) : Z * Z :=
  VisualLatticeSelector._get_hex_neighbor p.1 p.2 direction.

(** Bounds with [min <= max] on each of the three axes. *)
Definition valid_bounds (bounds : (Z * Z) * (Z * Z) * (Z * Z)) : Prop :=
  bounds.1.1.1 ≤ bounds.1.1.2 ∧ bounds.1.2.1 ≤ bounds.1.2.2
  ∧ bounds.2.1 ≤ bounds.2.2.

(** The selector still holds the bounds it was created with, and its
    cursor [(i, j)] and layer [k] lie within them. *)
Definition within (bounds : (Z * Z) * (Z * Z) * (Z * Z))
    (self : VisualLatticeSelector.t) : Prop :=
  VisualLatticeSelector.i_bounds self = bounds.1.1
  ∧ VisualLatticeSelector.j_bounds self = bounds.1.2
  ∧ VisualLatticeSelector.k_bounds self = bounds.2
  ∧ bounds.1.1.1 ≤ VisualLatticeSelector.cursor_i self ≤ bounds.1.1.2
  ∧ bounds.1.2.1 ≤ VisualLatticeSelector.cursor_j self ≤ bounds.1.2.2
  ∧ bounds.2.1 ≤ VisualLatticeSelector.current_k self ≤ bounds.2.2.

(** The cursor and the layer of [self'] are those of [self]. *)
Definition cursor_unmoved (self self' : VisualLatticeSelector.t) : Prop :=
  VisualLatticeSelector.cursor_i self' = VisualLatticeSelector.cursor_i self
  ∧ VisualLatticeSelector.cursor_j self' = VisualLatticeSelector.cursor_j self
  ∧ VisualLatticeSelector.current_k self' = VisualLatticeSelector.current_k self.

(** The selector a run ends with, returned or still waiting. *)
Definition final_state (o : VisualLatticeSelector.outcome)
  : VisualLatticeSelector.t :=
  match o with
  | VisualLatticeSelector.Returned _ final => final
  | VisualLatticeSelector.Waiting current => current
  end.

(** An axis-aligned box [((i_min, i_max), (j_min, j_max), (k_min, k_max))]. *)
Definition in_box (b : (Z * Z) * (Z * Z) * (Z * Z)) (c : cell) : Prop :=
  b.1.1.1 ≤ cell_i c ≤ b.1.1.2
  ∧ b.1.2.1 ≤ cell_j c ≤ b.1.2.2
  ∧ b.2.1 ≤ cell_k c ≤ b.2.2.

(** The number of cells of a box. *)
Definition box_volume (b : (Z * Z) * (Z * Z) * (Z * Z)) : Z :=
  (b.1.1.2 - b.1.1.1 + 1) * (b.1.2.2 - b.1.2.1 + 1) * (b.2.2 - b.2.1 + 1).

(** [b] is the bounding box of the selection over the three axes
    jointly: every selected cell lies in it and each of its six faces
    touches a selected cell. *)
Definition is_bounding_box (sel : gset cell)
    (b : (Z * Z) * (Z * Z) * (Z * Z)) : Prop :=
  (∀ c, c ∈ sel → in_box b c)
  ∧ (∃ c, c ∈ sel ∧ cell_i c = b.1.1.1) ∧ (∃ c, c ∈ sel ∧ cell_i c = b.1.1.2)
  ∧ (∃ c, c ∈ sel ∧ cell_j c = b.1.2.1) ∧ (∃ c, c ∈ sel ∧ cell_j c = b.1.2.2)
  ∧ (∃ c, c ∈ sel ∧ cell_k c = b.2.1) ∧ (∃ c, c ∈ sel ∧ cell_k c = b.2.2).

(** The selection has as many cells as the box and contains every cell
    of the box. *)
Definition fills_box (sel : gset cell)
    (b : (Z * Z) * (Z * Z) * (Z * Z)) : Prop :=
  Z.of_nat (size sel) = box_volume b ∧ ∀ c, in_box b c → c ∈ sel.

(** The dimension of one axis of a contiguous result. *)
Definition axis_dimension (lo hi : Z) : Dimension :=
  if decide (lo = hi) then Single lo else Range lo hi.

(** A selector over a 3 x 3 x 1 grid holding the two cells (0,0,0) and
    (2,1,0). *)
Definition two_cells : VisualLatticeSelector.t :=
  VisualLatticeSelector.set_selected
    (VisualLatticeSelector.__init__ 1 ((0, 2), (0, 2), (0, 0)) false)
    {[ (0, 0, 0); (2, 1, 0) ]}.

(** A dimension that is not a range with its minimum above its maximum. *)
Definition valid_dimension (val : option Dimension) : Prop :=
  match val with
  | Some (Range lo hi) => lo ≤ hi
  | _ => True
  end.

(** A spec with valid dimensions that is not a discrete spec without
    elements. *)
Definition well_formed (spec : LatticeSpec.t) : Prop :=
  valid_dimension (LatticeSpec.i spec)
  ∧ valid_dimension (LatticeSpec.j spec)
  ∧ valid_dimension (LatticeSpec.k spec)
  ∧ LatticeSpec.elements spec ≠ Some [].

(** Scenario B of the examples with the lattice spec of cell 50 replaced
    by [spec]. *)
Definition pin_in_assembly (spec : LatticeSpec.t) : MCNPWizard.t :=
  MCNPWizard.mk
    [ Node.mk 101 (Some 5) None false false None None None;
      Node.mk 50 (Some 100) (Some 5) true false (Some spec) None None;
      Node.mk 1 (Some 0) (Some 100) false false None None None ]
    (Some 101).

(** Scenario C of the examples: the four corner pins. *)
Definition corner_pins : MCNPWizard.t :=
  pin_in_assembly (Discrete [(0, 0, 0); (9, 9, 0); (0, 9, 0); (9, 0, 0)]).

(** The range token of a contiguous spec: the three formatted
    dimensions, space-separated, in square brackets. *)
Definition range_token (spec : LatticeSpec.t) : string :=
  "[" +:+ join " " (LatticeSpec.format_dimension <$>
                      [LatticeSpec.i spec; LatticeSpec.j spec;
                       LatticeSpec.k spec]) +:+ "]".

(** The token of a node above the target in a stack without discrete
    specs: the cell identifier, directly followed by the range token
    when the node is a lattice node with a spec. *)
Definition range_token_part (node : Node.t) : string :=
  match Node.is_lattice node, Node.lattice_spec node with
  | true, Some spec => str (Node.cell_id node) +:+ range_token spec
  | _, _ => str (Node.cell_id node)
  end.

(** No node of the stack carries a discrete spec. *)
Definition no_discrete_spec (stack : list Node.t) : Prop :=
  ∀ node spec,
    node ∈ stack → Node.lattice_spec node = Some spec →
    LatticeSpec.elements spec = None.

(** Scenario B of the examples: the pin at lattice position [3 4 0]. *)
Definition single_pin : MCNPWizard.t :=
  pin_in_assembly (Contiguous (Single 3) (Single 4) (Single 0)).

(** A stack whose node at index 0 is itself a lattice node with a
    contiguous spec. *)
Definition lattice_target : MCNPWizard.t :=
  MCNPWizard.mk
    [ Node.mk 101 (Some 5) None true false
        (Some (Contiguous (Single 3) (Single 4) (Single 0))) None None;
      Node.mk 1 (Some 0) (Some 5) false false None None None ]
    (Some 101).

(** A stack with two discrete lattice nodes. *)
Definition two_discrete : MCNPWizard.t :=
  MCNPWizard.mk
    [ Node.mk 101 (Some 5) None false false None None None;
      Node.mk 50 (Some 60) (Some 5) true false
        (Some (Discrete [(0, 0, 0); (1, 1, 0)])) None None;
      Node.mk 20 (Some 100) (Some 60) true false
        (Some (Discrete [(5, 5, 5)])) None None;
      Node.mk 1 (Some 0) (Some 100) false false None None None ]
    (Some 101).

(** The bounds a selector carries. *)
Definition selector_bounds (self : VisualLatticeSelector.t)
  : (Z * Z) * (Z * Z) * (Z * Z) :=
  (VisualLatticeSelector.i_bounds self, VisualLatticeSelector.j_bounds self,
   VisualLatticeSelector.k_bounds self).

(** Every selected cell lies within the bounds. *)
Definition selection_within (bounds : (Z * Z) * (Z * Z) * (Z * Z))
    (self : VisualLatticeSelector.t) : Prop :=
  ∀ c, c ∈ VisualLatticeSelector.selected self → in_box bounds c.

(** The cells of a box, listed axis by axis. *)
Definition box_cells (b : (Z * Z) * (Z * Z) * (Z * Z)) : list cell :=
  i ← range b.1.1.1 (b.1.1.2 + 1);
  j ← range b.1.2.1 (b.1.2.2 + 1);
  k ← range b.2.1 (b.2.2 + 1);
  [(i, j, k)].

(** The indices a dimension names lie between [lo] and [hi]. *)
Definition dimension_within (lo hi : Z) (val : option Dimension) : Prop :=
  match val with
  | Some (Single n) => lo ≤ n ≤ hi
  | Some (Range a b) => lo ≤ a ∧ b ≤ hi
  | None => True
  end.

(** Every position a spec names lies within the bounds. *)
Definition spec_within (bounds : (Z * Z) * (Z * Z) * (Z * Z))
    (spec : LatticeSpec.t) : Prop :=
  dimension_within bounds.1.1.1 bounds.1.1.2 (LatticeSpec.i spec)
  ∧ dimension_within bounds.1.2.1 bounds.1.2.2 (LatticeSpec.j spec)
  ∧ dimension_within bounds.2.1 bounds.2.2 (LatticeSpec.k spec)
  ∧ ∀ c, c ∈ LatticeSpec.get_all_elements spec → in_box bounds c.

(** * Properties *)

(** ** Strings and decimal numerals *)

Lemma chars_app (s1 s2 : string) : chars (s1 +:+ s2) = chars s1 ++ chars s2.
Proof.
  unfold chars. induction s1 as [|c s1 IH]; simpl; [done|].
  by rewrite <- IH.
Qed.

Lemma comma_free_app (s1 s2 : string) :
  comma_free s1 → comma_free s2 → comma_free (s1 +:+ s2).
Proof.
  unfold comma_free. rewrite chars_app, elem_of_app. tauto.
Qed.

Lemma comma_free_uint (d : Decimal.uint) :
  comma_free (NilEmpty.string_of_uint d).
Proof.
  unfold comma_free, chars.
  induction d; simpl; rewrite ?elem_of_cons; try (intros [?|?]; done).
  apply not_elem_of_nil.
Qed.

Lemma comma_free_str (n : Z) : comma_free (str n).
Proof.
  assert (Hu : ∀ d, comma_free (NilZero.string_of_uint d)).
  { intros d. destruct d; try apply comma_free_uint.
    unfold comma_free, chars. simpl. rewrite elem_of_cons.
    intros [?|H]; [done|]. by apply not_elem_of_nil in H. }
  unfold str. destruct (Z.to_int n) as [d|d]; simpl; [apply Hu|].
  specialize (Hu d). unfold comma_free, chars in *. simpl.
  rewrite elem_of_cons. intros [?|?]; done.
Qed.

Lemma to_int_proper (n : Z) :
  Z.to_int n ≠ Decimal.Pos Decimal.Nil ∧ Z.to_int n ≠ Decimal.Neg Decimal.Nil.
Proof.
  destruct n as [|p|p]; simpl; split; try discriminate;
    intros [= H]; by apply DecimalPos.Unsigned.to_uint_nonnil in H.
Qed.

(** [str n] is the decimal numeral of [n]: reading it back gives [n]. *)
Lemma int_of_str_str (n : Z) : int_of_str (str n) = Some n.
Proof.
  unfold int_of_str, str.
  destruct (to_int_proper n) as [Hp Hn].
  rewrite NilZero.isi by done. simpl. by rewrite DecimalZ.of_to.
Qed.

Lemma str_inj (n m : Z) : str n = str m → n = m.
Proof.
  intros H. apply (f_equal int_of_str) in H.
  rewrite !int_of_str_str in H. by injection H.
Qed.

(** Closes [comma_free] goals about string literals. *)
Ltac comma_free_literal :=
  unfold comma_free, chars; simpl;
  rewrite ?elem_of_cons, elem_of_nil; intuition discriminate.

Lemma string_app_assoc (s1 s2 s3 : string) :
  (s1 +:+ s2) +:+ s3 = s1 +:+ (s2 +:+ s3).
Proof.
  induction s1 as [|c s1 IH]; [done|].
  change (String c ((s1 +:+ s2) +:+ s3) = String c (s1 +:+ (s2 +:+ s3))).
  by rewrite IH.
Qed.

Lemma comma_free_format_dimension (val : option Dimension) :
  comma_free (LatticeSpec.format_dimension val).
Proof.
  destruct val as [[n|lo hi]|]; simpl.
  - apply comma_free_str.
  - repeat apply comma_free_app; try apply comma_free_str.
    comma_free_literal.
  - comma_free_literal.
Qed.

(** ** LatticeSpec: formatting and counting *)

(** C9: [format_dimension] renders [Single n] as the decimal numeral of
    [n] and [Range a b] as the numeral of [a], a colon and the numeral of
    [b] (for every [a] and [b], so in particular when [a <= b]); the
    range token of a contiguous spec is an opening bracket, the three
    formatted dimensions joined by single spaces, and a closing bracket,
    and no comma occurs anywhere in it. *)
Theorem format_dimension_range_token :
  (∀ n, LatticeSpec.format_dimension (Some (Single n)) = str n
        ∧ int_of_str (str n) = Some n) ∧
  (∀ a b, LatticeSpec.format_dimension (Some (Range a b))
          = str a +:+ ":" +:+ str b) ∧
  (∀ di dj dk,
     LatticeSpec.to_mcnp_string (Contiguous di dj dk)
     = "[" +:+ join " " (LatticeSpec.format_dimension <$>
                           [Some di; Some dj; Some dk]) +:+ "]"
     ∧ comma_free (LatticeSpec.to_mcnp_string (Contiguous di dj dk))).
Proof.
  assert (Htoken : ∀ di dj dk,
    LatticeSpec.to_mcnp_string (Contiguous di dj dk)
    = "[" +:+ LatticeSpec.format_dimension (Some di) +:+ " "
          +:+ LatticeSpec.format_dimension (Some dj) +:+ " "
          +:+ LatticeSpec.format_dimension (Some dk) +:+ "]") by reflexivity.
  split_and!.
  - intros n. split; [done|apply int_of_str_str].
  - done.
  - intros di dj dk. rewrite Htoken. split.
    + unfold join. simpl. by rewrite !string_app_assoc.
    + repeat (apply comma_free_app);
        try apply comma_free_format_dimension; comma_free_literal.
Qed.

(** C8: [element_count] of a contiguous spec is the product of the span
    sizes of its three axes, and of a discrete spec the number of its
    elements. *)
Theorem element_count_product_or_length :
  (∀ di dj dk,
     LatticeSpec.element_count (Contiguous di dj dk)
     = span di * span dj * span dk) ∧
  (∀ els : list cell,
     LatticeSpec.element_count (Discrete els) = Z.of_nat (length els)).
Proof.
  split.
  - intros [?|??] [?|??] [?|??]; reflexivity.
  - reflexivity.
Qed.

(** ** The hexagonal neighbour function *)

Lemma odd_row_pred (j : Z) : ((j - 1) `mod` 2 =? 1) = negb (j `mod` 2 =? 1).
Proof.
  destruct (Z.eqb_spec (j `mod` 2) 1), (Z.eqb_spec ((j - 1) `mod` 2) 1);
    simpl; try done; exfalso; Z.div_mod_to_equations; lia.
Qed.

Lemma odd_row_succ (j : Z) : ((j + 1) `mod` 2 =? 1) = negb (j `mod` 2 =? 1).
Proof.
  destruct (Z.eqb_spec (j `mod` 2) 1), (Z.eqb_spec ((j + 1) `mod` 2) 1);
    simpl; try done; exfalso; Z.div_mod_to_equations; lia.
Qed.

(** C5: a hexagonal move followed by the opposite move returns to the
    starting position, for every [(i, j)], whatever the parity of the
    row [j]. *)
Theorem hex_neighbor_opposite_moves (i j : Z) :
  hex_step (hex_step (i, j) "E") "W" = (i, j) ∧
  hex_step (hex_step (i, j) "W") "E" = (i, j) ∧
  hex_step (hex_step (i, j) "NE") "SW" = (i, j) ∧
  hex_step (hex_step (i, j) "SW") "NE" = (i, j) ∧
  hex_step (hex_step (i, j) "NW") "SE" = (i, j) ∧
  hex_step (hex_step (i, j) "SE") "NW" = (i, j).
Proof.
  unfold hex_step, VisualLatticeSelector._get_hex_neighbor; simpl.
  split_and!;
    try (destruct (j `mod` 2 =? 1) eqn:Hodd; simpl;
         rewrite ?odd_row_pred, ?odd_row_succ, Hodd; simpl);
    f_equal; lia.
Qed.

(** ** The SD-card check *)

(** C7: [_check_needs_sd_card] is true exactly when some node at an
    index other than 0 has its lattice flag set; so it is false for a
    stack without lattice nodes, and false when only the node at index 0
    is a lattice. *)
Theorem check_needs_sd_card_iff (stack : list Node.t) (target : option Z) :
  let self := MCNPWizard.mk stack target in
  (MCNPWizard._check_needs_sd_card self = true
   ↔ ∃ (idx : nat) (node : Node.t),
       (1 ≤ idx)%nat ∧ stack !! idx = Some node ∧ Node.is_lattice node = true) ∧
  ((∀ node, node ∈ stack → Node.is_lattice node = false)
   → MCNPWizard._check_needs_sd_card self = false) ∧
  ((∀ (idx : nat) node, stack !! idx = Some node →
      Node.is_lattice node = true → idx = 0%nat)
   → MCNPWizard._check_needs_sd_card self = false).
Proof.
  simpl.
  assert (Hiff : MCNPWizard._check_needs_sd_card (MCNPWizard.mk stack target) = true
    ↔ ∃ (idx : nat) (node : Node.t),
       (1 ≤ idx)%nat ∧ stack !! idx = Some node ∧ Node.is_lattice node = true).
  { unfold MCNPWizard._check_needs_sd_card; simpl. split.
    - case_bool_decide; [|done].
      rewrite existsb_exists. intros (node & Hin & Hlat).
      apply list_elem_of_In, list_elem_of_lookup in Hin as [n Hn].
      rewrite lookup_drop in Hn. exists (1 + n)%nat, node. split_and!; [lia|done..].
    - intros (idx & node & Hidx & Hlook & Hlat).
      rewrite bool_decide_true.
      + apply existsb_exists. exists node. split; [|done].
        apply list_elem_of_In, list_elem_of_lookup. exists (idx - 1)%nat.
        rewrite lookup_drop. by replace (1 + (idx - 1))%nat with idx by lia.
      + apply lookup_lt_Some in Hlook. lia. }
  split_and!; [done|..].
  - intros Hnone. apply not_true_is_false. rewrite Hiff.
    intros (idx & node & _ & Hlook & Hlat).
    apply list_elem_of_lookup_2 in Hlook. rewrite (Hnone _ Hlook) in Hlat. done.
  - intros Honly. apply not_true_is_false. rewrite Hiff.
    intros (idx & node & Hidx & Hlook & Hlat).
    specialize (Honly _ _ Hlook Hlat). lia.
Qed.

Lemma check_needs_sd_card_iff_witness :
  MCNPWizard._check_needs_sd_card lattice_target = false
  ∧ MCNPWizard._check_needs_sd_card single_pin = true.
Proof.
  split.
  - apply (proj2 (proj2 (check_needs_sd_card_iff
      (MCNPWizard.universe_stack lattice_target) (Some 101)))).
    intros idx node Hlook Hlat.
    destruct idx as [|[|idx]]; simpl in Hlook; [reflexivity| |discriminate].
    injection Hlook as <-. discriminate Hlat.
  - apply (proj1 (check_needs_sd_card_iff
      (MCNPWizard.universe_stack single_pin) (Some 101))).
    exists 1%nat,
      (Node.mk 50 (Some 100) (Some 5) true false
         (Some (Contiguous (Single 3) (Single 4) (Single 0))) None None).
    split; [apply le_n|split; reflexivity].
Defined.

(** ** The grid selector keeps its cursor within the bounds *)

Lemma init_within lattice_type bounds is_infinite :
  valid_bounds bounds →
  within bounds (VisualLatticeSelector.__init__ lattice_type bounds is_infinite).
Proof.
  destruct bounds as [[[i_lo i_hi] [j_lo j_hi]] [k_lo k_hi]].
  unfold valid_bounds, within; simpl. intros (Hi & Hj & Hk).
  split_and!; try done;
    try (apply Z.div_le_lower_bound; lia);
    try (apply Z.div_le_upper_bound; lia).
Qed.

Lemma hex_move_within bounds self direction :
  within bounds self →
  within bounds (VisualLatticeSelector.hex_move self direction).
Proof.
  intros Hin. unfold VisualLatticeSelector.hex_move.
  destruct (VisualLatticeSelector._get_hex_neighbor _ _ _) as [new_i new_j].
  destruct (_ && _) eqn:Hguard; [|done].
  destruct Hin as (Hi & Hj & Hk & _ & _ & Hkk).
  rewrite !andb_true_iff, !Z.leb_le, Hi, Hj in Hguard.
  unfold within; simpl. split_and!; try done; lia.
Qed.

Lemma set_selected_within bounds self sel :
  within bounds self →
  within bounds (VisualLatticeSelector.set_selected self sel).
Proof. done. Qed.

Lemma toggle_within bounds self :
  within bounds self → within bounds (VisualLatticeSelector.toggle self).
Proof.
  intros Hin. unfold VisualLatticeSelector.toggle.
  case_bool_decide; by apply set_selected_within.
Qed.

Lemma select_all_within bounds self :
  within bounds self → within bounds (VisualLatticeSelector.select_all self).
Proof. apply set_selected_within. Qed.

Lemma set_cursor_within bounds self new_i new_j :
  within bounds self →
  (VisualLatticeSelector.i_bounds self).1 ≤ new_i
    ≤ (VisualLatticeSelector.i_bounds self).2 →
  (VisualLatticeSelector.j_bounds self).1 ≤ new_j
    ≤ (VisualLatticeSelector.j_bounds self).2 →
  within bounds (VisualLatticeSelector.set_cursor self new_i new_j).
Proof.
  intros (Hi & Hj & Hk & _ & _ & Hck). rewrite Hi, Hj. intros Hni Hnj.
  unfold within; simpl. split_and!; try done; lia.
Qed.

Lemma set_current_k_within bounds self new_k :
  within bounds self →
  (VisualLatticeSelector.k_bounds self).1 ≤ new_k
    ≤ (VisualLatticeSelector.k_bounds self).2 →
  within bounds (VisualLatticeSelector.set_current_k self new_k).
Proof.
  intros (Hi & Hj & Hk & Hci & Hcj & _). rewrite Hk. intros Hnk.
  unfold within; simpl. split_and!; try done; lia.
Qed.

Lemma on_key_within bounds self key self' :
  within bounds self →
  VisualLatticeSelector.on_key self key = VisualLatticeSelector.Continue self' →
  within bounds self'.
Proof.
  intros Hin Hkey. unfold VisualLatticeSelector.on_key in Hkey.
  assert (Hin' := Hin). destruct Hin' as (Hi & Hj & Hk & Hci & Hcj & Hck).
  rewrite <- Hi in Hci. rewrite <- Hj in Hcj. rewrite <- Hk in Hck.
  repeat match type of Hkey with
         | (if ?c then _ else _) = _ => destruct c
         end;
    try discriminate; injection Hkey as <-;
    first [ done
          | by apply hex_move_within
          | by apply toggle_within
          | by apply select_all_within
          | by apply set_selected_within
          | apply set_cursor_within; [done|lia..]
          | apply set_current_k_within; [done|lia] ].
Qed.

Lemma run_within bounds (keys : list Z) : ∀ self,
  within bounds self →
  within bounds (final_state (VisualLatticeSelector.run self keys)).
Proof.
  induction keys as [keys IH] using (induction_ltof1 _ length).
  unfold ltof in IH. intros self Hin.
  destruct keys as [|key rest]; [done|]. simpl.
  destruct (VisualLatticeSelector.on_key self key) as [result| |self'] eqn:Hkey.
  - done.
  - destruct rest as [|key' rest']; [done|]. apply IH; [simpl; lia|done].
  - apply IH; [simpl; lia|]. by eapply on_key_within.
Qed.

(** C10: with [min <= max] on each axis, the cursor [(i, j)] and the
    layer [k] lie within the bounds right after initialisation and at
    the end of every sequence of key presses; toggling, selecting all
    and clearing leave the cursor and the layer where they are. *)
Theorem cursor_and_layer_stay_in_bounds
    (lattice_type : Z) (bounds : (Z * Z) * (Z * Z) * (Z * Z))
    (is_infinite : bool) (keys : list Z) :
  valid_bounds bounds →
  let start := VisualLatticeSelector.__init__ lattice_type bounds is_infinite in
  within bounds start
  ∧ within bounds (final_state (VisualLatticeSelector.run start keys))
  ∧ ∀ self,
      cursor_unmoved self (VisualLatticeSelector.toggle self)
      ∧ cursor_unmoved self (VisualLatticeSelector.select_all self)
      ∧ cursor_unmoved self (VisualLatticeSelector.set_selected self ∅).
Proof.
  intros Hvalid start. split_and!.
  - by apply init_within.
  - by apply run_within, init_within.
  - intros self. unfold cursor_unmoved, VisualLatticeSelector.toggle.
    case_bool_decide; done.
Qed.

Lemma cursor_and_layer_stay_in_bounds_witness :
  valid_bounds ((0, 2), (0, 2), (0, 1))
  ∧ within ((0, 2), (0, 2), (0, 1))
      (final_state
         (VisualLatticeSelector.run
            (VisualLatticeSelector.__init__ 2 ((0, 2), (0, 2), (0, 1)) false)
            [KEY_RIGHT; KEY_RIGHT; KEY_UP; ord "z"; ord "]"; ord "]"; ord " "])).
Proof.
  assert (Hvalid : valid_bounds ((0, 2), (0, 2), (0, 1)))
    by (unfold valid_bounds; simpl; lia).
  split; [exact Hvalid|].
  exact (proj1 (proj2 (cursor_and_layer_stay_in_bounds 2
    ((0, 2), (0, 2), (0, 1)) false
    [KEY_RIGHT; KEY_RIGHT; KEY_UP; ord "z"; ord "]"; ord "]"; ord " "]
    Hvalid))).
Defined.

(** ** Finalisation: contiguity by the joint bounding box *)

Lemma py_min_spec (x : Z) (xs : list Z) :
  (∀ y, y ∈ x :: xs → py_min x xs ≤ y) ∧ py_min x xs ∈ x :: xs.
Proof.
  unfold py_min. revert x.
  induction xs as [|z xs IH]; intros x; simpl.
  - split; [|left]. by intros y ->%list_elem_of_singleton.
  - destruct (IH (Z.min x z)) as [Hle Hin]. split.
    + intros y Hy. rewrite !elem_of_cons in Hy.
      assert (foldl Z.min (Z.min x z) xs ≤ Z.min x z) by (apply Hle; left).
      destruct Hy as [->| [->|Hy]]; [lia..|]. apply Hle. by right.
    + rewrite elem_of_cons in Hin. rewrite !elem_of_cons.
      destruct Hin as [->|Hin]; [|auto].
      destruct (Z.min_spec x z) as [[_ ->]|[_ ->]]; auto.
Qed.

Lemma py_max_spec (x : Z) (xs : list Z) :
  (∀ y, y ∈ x :: xs → y ≤ py_max x xs) ∧ py_max x xs ∈ x :: xs.
Proof.
  unfold py_max. revert x.
  induction xs as [|z xs IH]; intros x; simpl.
  - split; [|left]. by intros y ->%list_elem_of_singleton.
  - destruct (IH (Z.max x z)) as [Hle Hin]. split.
    + intros y Hy. rewrite !elem_of_cons in Hy.
      assert (Z.max x z ≤ foldl Z.max (Z.max x z) xs) by (apply Hle; left).
      destruct Hy as [->| [->|Hy]]; [lia..|]. apply Hle. by right.
    + rewrite elem_of_cons in Hin. rewrite !elem_of_cons.
      destruct Hin as [->|Hin]; [|auto].
      destruct (Z.max_spec x z) as [[_ ->]|[_ ->]]; auto.
Qed.

(** The extreme coordinate of a non-empty list of cells is attained. *)
Lemma coordinate_attained (f : cell → Z) (cell0 : cell) (cells : list cell) (v : Z) :
  v ∈ f cell0 :: (f <$> cells) → ∃ c, c ∈ cell0 :: cells ∧ f c = v.
Proof.
  change (f cell0 :: (f <$> cells)) with (f <$> cell0 :: cells).
  intros (c & -> & Hc)%list_elem_of_fmap. eauto.
Qed.

Lemma coordinate_member (f : cell → Z) (cell0 : cell) (cells : list cell) (c : cell) :
  c ∈ cell0 :: cells → f c ∈ f cell0 :: (f <$> cells).
Proof.
  change (f cell0 :: (f <$> cells)) with (f <$> cell0 :: cells).
  apply list_elem_of_fmap_2.
Qed.

Lemma bounding_box_correct (sel : gset cell) (cell0 : cell) (cells : list cell) :
  elements sel = cell0 :: cells →
  is_bounding_box sel (VisualLatticeSelector.bounding_box cell0 cells).
Proof.
  intros Hl.
  assert (Hmem : ∀ c, c ∈ sel ↔ c ∈ cell0 :: cells).
  { intros c. by rewrite <- Hl, elem_of_elements. }
  unfold is_bounding_box, in_box, VisualLatticeSelector.bounding_box; simpl.
  destruct (py_min_spec (cell_i cell0) (cell_i <$> cells)) as [Hi1 Hi2].
  destruct (py_max_spec (cell_i cell0) (cell_i <$> cells)) as [Hi3 Hi4].
  destruct (py_min_spec (cell_j cell0) (cell_j <$> cells)) as [Hj1 Hj2].
  destruct (py_max_spec (cell_j cell0) (cell_j <$> cells)) as [Hj3 Hj4].
  destruct (py_min_spec (cell_k cell0) (cell_k <$> cells)) as [Hk1 Hk2].
  destruct (py_max_spec (cell_k cell0) (cell_k <$> cells)) as [Hk3 Hk4].
  split_and!.
  - intros c Hc%Hmem.
    pose proof (coordinate_member cell_i _ _ _ Hc).
    pose proof (coordinate_member cell_j _ _ _ Hc).
    pose proof (coordinate_member cell_k _ _ _ Hc).
    split_and!; auto.
  - apply coordinate_attained in Hi2 as (c & ? & ?). exists c. by rewrite Hmem.
  - apply coordinate_attained in Hi4 as (c & ? & ?). exists c. by rewrite Hmem.
  - apply coordinate_attained in Hj2 as (c & ? & ?). exists c. by rewrite Hmem.
  - apply coordinate_attained in Hj4 as (c & ? & ?). exists c. by rewrite Hmem.
  - apply coordinate_attained in Hk2 as (c & ? & ?). exists c. by rewrite Hmem.
  - apply coordinate_attained in Hk4 as (c & ? & ?). exists c. by rewrite Hmem.
Qed.

Lemma forallb_range (f : Z → bool) (lo hi : Z) :
  forallb f (range lo (hi + 1)) = true ↔ ∀ x, lo ≤ x ≤ hi → f x = true.
Proof.
  rewrite forallb_forall. unfold range. split.
  - intros H x Hx. apply H, list_elem_of_In, elem_of_seqZ. lia.
  - intros H x Hx%list_elem_of_In%elem_of_seqZ. apply H. lia.
Qed.

(** The triple loop of [_is_selection_contiguous]. *)
Lemma box_scan (sel : gset cell) (b : (Z * Z) * (Z * Z) * (Z * Z)) :
  forallb (λ i,
    forallb (λ j,
      forallb (λ k, bool_decide ((i, j, k) ∈ sel))
              (range b.2.1 (b.2.2 + 1)))
            (range b.1.2.1 (b.1.2.2 + 1)))
          (range b.1.1.1 (b.1.1.2 + 1)) = true
  ↔ ∀ c, in_box b c → c ∈ sel.
Proof.
  rewrite forallb_range. setoid_rewrite forallb_range.
  setoid_rewrite forallb_range. setoid_rewrite bool_decide_eq_true.
  unfold in_box. split.
  - intros H [[ci cj] ck] (Hi & Hj & Hk). by apply H.
  - intros H i Hi j Hj k Hk. by apply H.
Qed.

Lemma is_selection_contiguous_iff (self : VisualLatticeSelector.t)
    (cell0 : cell) (cells : list cell) :
  elements (VisualLatticeSelector.selected self) = cell0 :: cells →
  VisualLatticeSelector._is_selection_contiguous self = true
  ↔ fills_box (VisualLatticeSelector.selected self)
              (VisualLatticeSelector.bounding_box cell0 cells).
Proof.
  intros Hl.
  assert (Hsize : size (VisualLatticeSelector.selected self) = S (length cells)).
  { unfold size, set_size; simpl. by rewrite Hl. }
  unfold VisualLatticeSelector._is_selection_contiguous. rewrite Hl.
  destruct cells as [|cell1 cells].
  - split; [intros _|done]. unfold fills_box. rewrite Hsize.
    unfold box_volume, in_box, VisualLatticeSelector.bounding_box,
      py_min, py_max; simpl.
    split; [lia|]. intros [[ci cj] ck] (Hi & Hj & Hk).
    apply elem_of_elements. rewrite Hl. apply list_elem_of_singleton.
    destruct cell0 as [[i0 j0] k0]. unfold cell_i, cell_j, cell_k in *.
    simpl in *. repeat f_equal; lia.
  - set (b := VisualLatticeSelector.bounding_box cell0 (cell1 :: cells)).
    unfold fills_box. rewrite <- (box_scan _ b). unfold box_volume.
    destruct b as [[[i_min i_max] [j_min j_max]] [k_min k_max]]; simpl.
    destruct (Z.eqb_spec
      ((i_max - i_min + 1) * (j_max - j_min + 1) * (k_max - k_min + 1))
      (Z.of_nat (size (VisualLatticeSelector.selected self)))) as [Heq|Hne].
    + split; [by intros ->|by intros [_ ->]].
    + split; [done|]. intros [Heq _]. by rewrite Heq in Hne.
Qed.

#[global] Instance cell_le_trans : Transitive cell_le.
Proof. intros a b c. unfold cell_le. lia. Qed.

#[global] Instance cell_le_total : Total cell_le.
Proof. intros a b. unfold cell_le. lia. Qed.

Lemma cell_le_neq_lt (a b : cell) : cell_le a b → a ≠ b → cell_lt a b.
Proof.
  destruct a as [[ai aj] ak], b as [[bi bj] bk].
  unfold cell_le, cell_lt, cell_i, cell_j, cell_k; simpl. intros H Hne.
  assert (ai ≠ bi ∨ aj ≠ bj ∨ ak ≠ bk).
  { destruct (decide (ai = bi)), (decide (aj = bj)), (decide (ak = bk));
      subst; tauto. }
  lia.
Qed.

(** Sorting a duplicate-free list gives a strictly ascending list with
    the same members. *)
Lemma sorted_ascending (cells : list cell) :
  NoDup cells →
  StronglySorted cell_lt (sorted cells) ∧ ∀ c, c ∈ sorted cells ↔ c ∈ cells.
Proof.
  intros Hnodup. unfold sorted.
  pose proof (merge_sort_Permutation cell_le cells) as Hperm.
  pose proof (StronglySorted_merge_sort cell_le cells) as Hsorted.
  split; [|intros c; by rewrite Hperm].
  rewrite <- Hperm in Hnodup. clear Hperm.
  induction Hsorted as [|a l Hl IH Hall]; [constructor|].
  apply NoDup_cons in Hnodup as [Hnotin Hnodup].
  constructor; [by apply IH|].
  rewrite Forall_forall in Hall |- *. intros x Hx.
  apply cell_le_neq_lt; [by apply Hall|]. intros ->. done.
Qed.

Lemma make_spec_dim_axis (lo hi : Z) :
  VisualLatticeSelector.make_spec_dim lo hi = axis_dimension lo hi.
Proof.
  unfold VisualLatticeSelector.make_spec_dim, axis_dimension.
  destruct (Z.eqb_spec lo hi); by case_decide.
Qed.

(** The key [d]: return the spec of a non-empty selection, complain
    about an empty one. *)
Lemma on_key_done (self : VisualLatticeSelector.t) :
  VisualLatticeSelector.on_key self (ord "d")
  = if negb (bool_decide (size (VisualLatticeSelector.selected self) = 0%nat))
    then VisualLatticeSelector.Return
           (VisualLatticeSelector._create_lattice_spec self)
    else VisualLatticeSelector.ErrorPause.
Proof. reflexivity. Qed.

(** C1: for a non-empty selection, finalisation (the key [d]) returns
    the spec decided by the bounding box over i, j and k jointly: when
    the selection has the size of the box and holds every cell of it,
    the contiguous spec whose axes are [Single] where min = max and
    [Range min max] otherwise; in every other case the discrete spec
    whose elements are the selected cells in strictly ascending
    lexicographic order. *)
Theorem finalize_by_joint_bounding_box (self : VisualLatticeSelector.t) :
  VisualLatticeSelector.selected self ≠ ∅ →
  ∃ b : (Z * Z) * (Z * Z) * (Z * Z),
    is_bounding_box (VisualLatticeSelector.selected self) b
    ∧ (∀ rest, VisualLatticeSelector.run self (ord "d" :: rest)
               = VisualLatticeSelector.Returned
                   (VisualLatticeSelector._create_lattice_spec self) self)
    ∧ (fills_box (VisualLatticeSelector.selected self) b →
       VisualLatticeSelector._create_lattice_spec self
       = Some (Contiguous (axis_dimension b.1.1.1 b.1.1.2)
                          (axis_dimension b.1.2.1 b.1.2.2)
                          (axis_dimension b.2.1 b.2.2)))
    ∧ (¬ fills_box (VisualLatticeSelector.selected self) b →
       ∃ els,
         VisualLatticeSelector._create_lattice_spec self = Some (Discrete els)
         ∧ StronglySorted cell_lt els
         ∧ ∀ c, c ∈ els ↔ c ∈ VisualLatticeSelector.selected self).
Proof.
  intros Hne.
  destruct (elements (VisualLatticeSelector.selected self))
    as [|cell0 cells] eqn:Hl.
  { by apply elements_empty_inv, leibniz_equiv in Hl. }
  exists (VisualLatticeSelector.bounding_box cell0 cells).
  pose proof (is_selection_contiguous_iff self cell0 cells Hl) as Hiff.
  split_and!.
  - by apply bounding_box_correct.
  - intros rest. simpl. rewrite on_key_done.
    rewrite bool_decide_false; [done|].
    unfold size, set_size; simpl. by rewrite Hl.
  - intros Hfill%Hiff.
    unfold VisualLatticeSelector._create_lattice_spec. rewrite Hl, Hfill.
    destruct (VisualLatticeSelector.bounding_box cell0 cells)
      as [[[i_min i_max] [j_min j_max]] [k_min k_max]]; simpl.
    by rewrite !make_spec_dim_axis.
  - intros Hfill. rewrite <- Hiff in Hfill. apply not_true_is_false in Hfill.
    unfold VisualLatticeSelector._create_lattice_spec. rewrite Hl, Hfill.
    eexists. split; [reflexivity|].
    destruct (sorted_ascending (cell0 :: cells)) as [Hs Hm].
    { rewrite <- Hl. apply NoDup_elements. }
    split; [done|]. intros c. by rewrite Hm, <- Hl, elem_of_elements.
Qed.

Lemma finalize_by_joint_bounding_box_witness :
  VisualLatticeSelector.selected two_cells ≠ ∅
  ∧ ∃ b : (Z * Z) * (Z * Z) * (Z * Z),
      is_bounding_box (VisualLatticeSelector.selected two_cells) b
      ∧ (∀ rest, VisualLatticeSelector.run two_cells (ord "d" :: rest)
                 = VisualLatticeSelector.Returned
                     (VisualLatticeSelector._create_lattice_spec two_cells)
                     two_cells)
      ∧ (fills_box (VisualLatticeSelector.selected two_cells) b →
         VisualLatticeSelector._create_lattice_spec two_cells
         = Some (Contiguous (axis_dimension b.1.1.1 b.1.1.2)
                            (axis_dimension b.1.2.1 b.1.2.2)
                            (axis_dimension b.2.1 b.2.2)))
      ∧ (¬ fills_box (VisualLatticeSelector.selected two_cells) b →
         ∃ els,
           VisualLatticeSelector._create_lattice_spec two_cells
           = Some (Discrete els)
           ∧ StronglySorted cell_lt els
           ∧ ∀ c, c ∈ els ↔ c ∈ VisualLatticeSelector.selected two_cells).
Proof.
  assert (Hne : VisualLatticeSelector.selected two_cells ≠ ∅).
  { apply (bool_decide_unpack _). vm_compute. exact I. }
  split; [exact Hne|].
  exact (finalize_by_joint_bounding_box two_cells Hne).
Defined.

(** ** Empty selections and ill-formed specs *)

Lemma make_spec_dim_valid (lo hi : Z) :
  lo ≤ hi → valid_dimension (Some (VisualLatticeSelector.make_spec_dim lo hi)).
Proof.
  intros Hle. unfold VisualLatticeSelector.make_spec_dim.
  by destruct (lo =? hi).
Qed.

Lemma py_min_le_max (x : Z) (xs : list Z) : py_min x xs ≤ py_max x xs.
Proof.
  destruct (py_min_spec x xs) as [Hmin _], (py_max_spec x xs) as [Hmax _].
  transitivity x; [apply Hmin|apply Hmax]; left.
Qed.

Lemma create_lattice_spec_well_formed (self : VisualLatticeSelector.t)
    (spec : LatticeSpec.t) :
  VisualLatticeSelector._create_lattice_spec self = Some spec →
  well_formed spec.
Proof.
  unfold VisualLatticeSelector._create_lattice_spec.
  destruct (elements (VisualLatticeSelector.selected self))
    as [|cell0 cells]; [done|].
  destruct (VisualLatticeSelector._is_selection_contiguous self).
  - unfold VisualLatticeSelector.bounding_box. intros [= <-].
    unfold well_formed; simpl.
    split_and!; try done; apply make_spec_dim_valid, py_min_le_max.
  - intros [= <-]. unfold well_formed; simpl. split_and!; try done.
    intros [= Hnil]. unfold sorted in Hnil.
    pose proof (merge_sort_Permutation cell_le (cell0 :: cells)) as Hperm.
    rewrite Hnil in Hperm. by apply Permutation_nil_cons in Hperm.
Qed.

(** C4 (as the program behaves): finalising a selector whose selection
    is empty produces no spec: [_create_lattice_spec] returns nothing,
    and the key [d] only shows the error, drops the next key and goes on
    with the selector unchanged.  Every spec finalisation does produce is
    well formed: no range has its minimum above its maximum and a
    discrete spec is not empty.  No error is raised anywhere; the
    constructor of [LatticeSpec] itself checks nothing. *)
Theorem finalize_empty_or_well_formed (self : VisualLatticeSelector.t) :
  (VisualLatticeSelector.selected self = ∅ →
     VisualLatticeSelector._create_lattice_spec self = None
     ∧ VisualLatticeSelector.on_key self (ord "d")
       = VisualLatticeSelector.ErrorPause
     ∧ VisualLatticeSelector.run self [ord "d"]
       = VisualLatticeSelector.Waiting self
     ∧ ∀ key rest,
         VisualLatticeSelector.run self (ord "d" :: key :: rest)
         = VisualLatticeSelector.run self rest)
  ∧ (∀ spec,
       VisualLatticeSelector._create_lattice_spec self = Some spec →
       well_formed spec).
Proof.
  split; [|apply create_lattice_spec_well_formed].
  intros Hempty.
  assert (Hkey : VisualLatticeSelector.on_key self (ord "d")
                 = VisualLatticeSelector.ErrorPause).
  { rewrite on_key_done, Hempty. reflexivity. }
  split_and!.
  - unfold VisualLatticeSelector._create_lattice_spec.
    by rewrite Hempty, elements_empty.
  - done.
  - simpl. by rewrite Hkey.
  - intros key rest. simpl. by rewrite Hkey.
Qed.

Lemma finalize_empty_or_well_formed_witness :
  let fresh := VisualLatticeSelector.__init__ 1 ((0, 2), (0, 2), (0, 0)) false in
  VisualLatticeSelector.selected fresh = ∅
  ∧ VisualLatticeSelector._create_lattice_spec fresh = None
  ∧ VisualLatticeSelector.run fresh [ord "d"; ord "d"; ord "q"]
    = VisualLatticeSelector.Returned None fresh.
Proof.
  intros fresh.
  assert (Hempty : VisualLatticeSelector.selected fresh = ∅) by reflexivity.
  destruct (proj1 (finalize_empty_or_well_formed fresh) Hempty)
    as (Hnone & _ & _ & Hskip).
  split_and!; [exact Hempty|exact Hnone|].
  rewrite Hskip. reflexivity.
Defined.

(** Counterexample to C4 as stated: [LatticeSpec(i=(5, 2), j=0, k=0)]
    and [LatticeSpec(elements=[])] are built without any error, and the
    program goes on to count and print them. *)
Lemma latticespec_constructor_unchecked :
  let reversed := Contiguous (Range 5 2) (Single 0) (Single 0) in
  let empty := Discrete [] in
  LatticeSpec.i reversed = Some (Range 5 2)
  ∧ ¬ well_formed reversed
  ∧ LatticeSpec.to_mcnp_string reversed = "[5:2 0 0]"
  ∧ LatticeSpec.element_count reversed = -2
  ∧ MCNPWizard._build_tally_path (pin_in_assembly reversed)
    = Some "( 101 < 50[5:2 0 0] < 1 )"
  ∧ LatticeSpec.elements empty = Some []
  ∧ ¬ well_formed empty
  ∧ LatticeSpec.element_count empty = 0
  ∧ MCNPWizard._build_tally_path (pin_in_assembly empty) = Some "(  )".
Proof.
  simpl. split_and!; try (vm_compute; reflexivity).
  - unfold well_formed, valid_dimension, Contiguous; simpl. lia.
  - unfold well_formed, Discrete; simpl. tauto.
Qed.

(** ** The path builder *)

(** The loop that appends one part per node builds the list of parts. *)
Lemma foldl_append_parts (f : Node.t → string) (above : list Node.t) :
  ∀ parts, foldl (λ parts node, parts ++ [f node]) parts above
           = parts ++ (f <$> above).
Proof.
  induction above as [|node above IH]; intros parts; simpl.
  - by rewrite app_nil_r.
  - by rewrite IH, <- app_assoc.
Qed.

Lemma single_path_parts_cons (target : Node.t) (above : list Node.t)
    (tc : option Z) (lattice_element : option cell) :
  MCNPWizard.single_path_parts (MCNPWizard.mk (target :: above) tc)
    lattice_element
  = Some (str (Node.cell_id target)
            :: (MCNPWizard.node_part lattice_element <$> above)).
Proof.
  unfold MCNPWizard.single_path_parts; simpl.
  by rewrite foldl_append_parts.
Qed.

(** [find] returns the first node, in stack order, that passes the test. *)
Lemma find_first (P : Node.t → bool) (stack : list Node.t)
    (idx : nat) (node : Node.t) :
  stack !! idx = Some node →
  P node = true →
  (∀ (n : nat) other, (n < idx)%nat → stack !! n = Some other → P other = false) →
  find P stack = Some node.
Proof.
  revert idx. induction stack as [|x stack IH]; intros idx Hlook HP Hfirst.
  - done.
  - destruct idx as [|idx]; simpl in *.
    + injection Hlook as ->. by rewrite HP.
    + rewrite (Hfirst 0%nat x) by (done || lia).
      apply (IH idx); [done..|].
      intros n other Hn Hother. apply (Hfirst (S n)); [lia|done].
Qed.

Lemma has_non_contiguous_lattice_true (self : MCNPWizard.t)
    (idx : nat) (node : Node.t) :
  MCNPWizard.universe_stack self !! idx = Some node →
  MCNPWizard.non_contiguous_lattice node = true →
  MCNPWizard._has_non_contiguous_lattice self = true.
Proof.
  intros Hlook HP. apply existsb_exists. exists node.
  split; [|done]. by apply list_elem_of_In, list_elem_of_lookup_2 with idx.
Qed.

(** The paths of the union, one per element, each in its own padded
    parentheses. *)
Lemma union_paths_mapM (self : MCNPWizard.t) (target : Node.t)
    (above : list Node.t) (els : list cell) :
  MCNPWizard.universe_stack self = target :: above →
  mapM (λ element,
     single_path ← MCNPWizard._build_single_path self (Some element);
     Some ("( " +:+ single_path +:+ " )")) els
  = Some ((λ element,
       "( " +:+ join " < " (str (Node.cell_id target)
          :: (MCNPWizard.node_part (Some element) <$> above)) +:+ " )")
     <$> els).
Proof.
  intros Hstack. apply mapM_Some, Forall2_fmap_r, Forall_Forall2_diag.
  apply Forall_forall. intros element _.
  unfold MCNPWizard._build_single_path.
  destruct self as [stack tc]; simpl in Hstack; subst stack.
  by rewrite single_path_parts_cons.
Qed.

Lemma build_union_paths_first (self : MCNPWizard.t) (target : Node.t)
    (above : list Node.t) (idx : nat) (node : Node.t)
    (spec : LatticeSpec.t) (els : list cell) :
  MCNPWizard.universe_stack self = target :: above →
  MCNPWizard.universe_stack self !! idx = Some node →
  Node.is_lattice node = true →
  Node.lattice_spec node = Some spec →
  LatticeSpec.elements spec = Some els →
  (∀ (n : nat) other, (n < idx)%nat →
     MCNPWizard.universe_stack self !! n = Some other →
     MCNPWizard.non_contiguous_lattice other = false) →
  MCNPWizard._build_union_paths self
  = Some ("( " +:+ join " "
       ((λ element,
          "( " +:+ join " < " (str (Node.cell_id target)
             :: (MCNPWizard.node_part (Some element) <$> above)) +:+ " )")
        <$> els) +:+ " )").
Proof.
  intros Hstack Hlook Hlat Hspec Hels Hfirst.
  unfold MCNPWizard._build_union_paths.
  rewrite (find_first _ _ idx node); [|done| |done].
  - rewrite Hspec; simpl. unfold LatticeSpec.get_all_elements. rewrite Hels.
    by rewrite (union_paths_mapM self target above els Hstack).
  - unfold MCNPWizard.non_contiguous_lattice, LatticeSpec.is_non_contiguous.
    by rewrite Hlat, Hspec, Hels.
Qed.

(** C2 (as the program behaves): when the stack holds a lattice node
    with a discrete spec, [_build_tally_path] builds one path per
    element of the first such node with [_build_single_path] and that
    element, wraps each path as "( path )", joins the wrapped paths with
    single spaces and wraps the whole as "( ... )": every parenthesis is
    padded with a space on its inner side. *)
Theorem tally_path_union_of_paths (self : MCNPWizard.t) (idx : nat)
    (node : Node.t) (spec : LatticeSpec.t) (els : list cell) :
  MCNPWizard.universe_stack self !! idx = Some node →
  Node.is_lattice node = true →
  Node.lattice_spec node = Some spec →
  LatticeSpec.elements spec = Some els →
  (∀ (n : nat) other, (n < idx)%nat →
     MCNPWizard.universe_stack self !! n = Some other →
     MCNPWizard.non_contiguous_lattice other = false) →
  ∃ paths : list string,
    Forall2 (λ element path,
               MCNPWizard._build_single_path self (Some element) = Some path)
            els paths
    ∧ MCNPWizard._build_tally_path self
      = Some ("( " +:+ join " " ((λ path, "( " +:+ path +:+ " )") <$> paths)
                   +:+ " )").
Proof.
  intros Hlook Hlat Hspec Hels Hfirst.
  destruct (MCNPWizard.universe_stack self) as [|target above] eqn:Hstack;
    [done|].
  exists ((λ element, join " < " (str (Node.cell_id target)
            :: (MCNPWizard.node_part (Some element) <$> above))) <$> els).
  split.
  - apply Forall2_fmap_r, Forall_Forall2_diag, Forall_forall.
    intros element _. unfold MCNPWizard._build_single_path.
    destruct self as [stack tc]; simpl in Hstack; subst stack.
    by rewrite single_path_parts_cons.
  - unfold MCNPWizard._build_tally_path. rewrite Hstack.
    rewrite (has_non_contiguous_lattice_true self idx node).
    + rewrite <- list_fmap_compose.
      apply (build_union_paths_first self target above idx node spec els);
        try done; by rewrite Hstack.
    + by rewrite Hstack.
    + unfold MCNPWizard.non_contiguous_lattice, LatticeSpec.is_non_contiguous.
      by rewrite Hlat, Hspec, Hels.
Qed.

Lemma tally_path_union_of_paths_witness :
  MCNPWizard._build_tally_path corner_pins
  = Some "( ( 101 < 50[0 0 0] < 1 ) ( 101 < 50[9 9 0] < 1 ) ( 101 < 50[0 9 0] < 1 ) ( 101 < 50[9 0 0] < 1 ) )"
  ∧ ∃ paths : list string,
      Forall2 (λ element path,
                 MCNPWizard._build_single_path corner_pins (Some element)
                 = Some path)
              [(0, 0, 0); (9, 9, 0); (0, 9, 0); (9, 0, 0)] paths
      ∧ MCNPWizard._build_tally_path corner_pins
        = Some ("( " +:+ join " " ((λ path, "( " +:+ path +:+ " )") <$> paths)
                     +:+ " )").
Proof.
  split; [vm_compute; reflexivity|].
  refine (tally_path_union_of_paths corner_pins 1
    (Node.mk 50 (Some 100) (Some 5) true false
       (Some (Discrete [(0, 0, 0); (9, 9, 0); (0, 9, 0); (9, 0, 0)])) None None)
    (Discrete [(0, 0, 0); (9, 9, 0); (0, 9, 0); (9, 0, 0)])
    [(0, 0, 0); (9, 9, 0); (0, 9, 0); (9, 0, 0)]
    eq_refl eq_refl eq_refl eq_refl _).
  intros n other Hn Hother.
  destruct n as [|n]; [|lia].
  injection Hother as <-. reflexivity.
Defined.

(** Counterexample to C2 as stated: on scenario C the program pads
    every parenthesis, so the result is not the string with tight inner
    parentheses. *)
Lemma tally_path_union_not_tight :
  MCNPWizard._build_tally_path corner_pins
  ≠ Some "( (101 < 50[0 0 0] < 1) (101 < 50[9 9 0] < 1) (101 < 50[0 9 0] < 1) (101 < 50[9 0 0] < 1) )".
Proof. vm_compute. discriminate. Qed.

Lemma to_mcnp_string_range_token (spec : LatticeSpec.t) :
  LatticeSpec.elements spec = None →
  LatticeSpec.to_mcnp_string spec = range_token spec.
Proof.
  intros Hels.
  unfold LatticeSpec.to_mcnp_string, LatticeSpec.is_contiguous, range_token.
  rewrite Hels. unfold join; simpl. by rewrite !string_app_assoc.
Qed.

Lemma node_part_range_token (node : Node.t) :
  (∀ spec, Node.lattice_spec node = Some spec →
           LatticeSpec.elements spec = None) →
  MCNPWizard.node_part None node = range_token_part node.
Proof.
  intros Hnone. unfold MCNPWizard.node_part, range_token_part.
  destruct (Node.is_lattice node); [|done].
  destruct (Node.lattice_spec node) as [spec|]; [|done].
  specialize (Hnone spec eq_refl).
  unfold LatticeSpec.is_non_contiguous, LatticeSpec.is_contiguous.
  rewrite Hnone. by rewrite to_mcnp_string_range_token.
Qed.

Lemma no_discrete_not_non_contiguous (stack : list Node.t) :
  no_discrete_spec stack →
  existsb MCNPWizard.non_contiguous_lattice stack = false.
Proof.
  intros Hnone. apply not_true_is_false.
  intros (node & Hin%list_elem_of_In & HP)%existsb_exists.
  unfold MCNPWizard.non_contiguous_lattice in HP.
  destruct (Node.lattice_spec node) as [spec|] eqn:Hspec;
    [|by rewrite andb_false_r in HP].
  unfold LatticeSpec.is_non_contiguous in HP.
  rewrite (Hnone node spec Hin Hspec), andb_false_r in HP. done.
Qed.

(** C3 (as the program behaves): for a non-empty stack in which no node
    carries a discrete spec, [_build_tally_path] emits, bottom-up, the
    plain cell identifier of the node at index 0 and, for every node
    above it, the cell identifier directly followed by the range token
    when the node is a lattice node with a spec; the tokens are joined
    with " < " and the result is wrapped as "( ... )". *)
Theorem tally_path_without_discrete (self : MCNPWizard.t)
    (target : Node.t) (above : list Node.t) :
  MCNPWizard.universe_stack self = target :: above →
  no_discrete_spec (MCNPWizard.universe_stack self) →
  MCNPWizard._build_tally_path self
  = Some ("( " +:+ join " < " (str (Node.cell_id target)
                                 :: (range_token_part <$> above)) +:+ " )").
Proof.
  intros Hstack Hnone.
  unfold MCNPWizard._build_tally_path, MCNPWizard._has_non_contiguous_lattice.
  rewrite (no_discrete_not_non_contiguous _ Hnone), Hstack.
  unfold MCNPWizard._build_single_path.
  destruct self as [stack tc]; simpl in Hstack; subst stack.
  rewrite single_path_parts_cons.
  assert (Hparts : MCNPWizard.node_part None <$> above
                   = range_token_part <$> above).
  { apply list_fmap_ext. intros n node Hnode.
    apply node_part_range_token. intros spec.
    apply Hnone; simpl. right. by apply list_elem_of_lookup_2 in Hnode. }
  by rewrite Hparts.
Qed.

Lemma tally_path_without_discrete_witness :
  no_discrete_spec (MCNPWizard.universe_stack single_pin)
  ∧ MCNPWizard._build_tally_path single_pin = Some "( 101 < 50[3 4 0] < 1 )"
  ∧ MCNPWizard._check_needs_sd_card single_pin = true.
Proof.
  assert (Hnone : no_discrete_spec (MCNPWizard.universe_stack single_pin)).
  { intros node spec Hin Hspec. simpl in Hin.
    rewrite !elem_of_cons, elem_of_nil in Hin.
    destruct Hin as [->|[->|[->|[]]]]; simpl in Hspec;
      try discriminate. by injection Hspec as <-. }
  split_and!; [exact Hnone| |reflexivity].
  rewrite (tally_path_without_discrete single_pin _ _ eq_refl Hnone).
  vm_compute. reflexivity.
Defined.

(** Counterexample to C3 as stated: the node at index 0 is always
    emitted as a plain cell identifier, even when it is a lattice node
    with a contiguous spec, so the result differs from the path with a
    range token on every lattice node. *)
Lemma tally_path_target_token_plain :
  no_discrete_spec (MCNPWizard.universe_stack lattice_target)
  ∧ MCNPWizard._build_tally_path lattice_target = Some "( 101 < 1 )"
  ∧ "( " +:+ join " < "
       (range_token_part <$> MCNPWizard.universe_stack lattice_target)
     +:+ " )" = "( 101[3 4 0] < 1 )"
  ∧ MCNPWizard._build_tally_path lattice_target
    ≠ Some ("( " +:+ join " < "
              (range_token_part <$> MCNPWizard.universe_stack lattice_target)
            +:+ " )").
Proof.
  split_and!; try (vm_compute; reflexivity).
  - intros node spec Hin Hspec. simpl in Hin.
    rewrite !elem_of_cons, elem_of_nil in Hin.
    destruct Hin as [->|[->|[]]]; simpl in Hspec; [|discriminate].
    by injection Hspec as <-.
  - vm_compute. discriminate.
Qed.

(** C6: with two discrete lattice nodes in the stack the union has one
    path per element of the first of them (cell 50), but the second
    (cell 20) is not left as its plain cell identifier: every path gives
    it the index token of the element taken from cell 50, a position
    never selected for cell 20, and its own element (5, 5, 5) appears in
    no path.  The program departs here from its own description, in
    which the element is for the one non-contiguous lattice and a
    discrete node without an element of its own is emitted plain. *)
Lemma second_discrete_node_indexed :
  MCNPWizard._build_tally_path two_discrete
  = Some "( ( 101 < 50[0 0 0] < 20[0 0 0] < 1 ) ( 101 < 50[1 1 0] < 20[1 1 0] < 1 ) )"
  ∧ MCNPWizard._build_tally_path two_discrete
    ≠ Some "( ( 101 < 50[0 0 0] < 20 < 1 ) ( 101 < 50[1 1 0] < 20 < 1 ) )"
  ∧ (parts ← MCNPWizard.single_path_parts two_discrete (Some (0, 0, 0));
     parts !! 2%nat) = Some "20[0 0 0]"
  ∧ (parts ← MCNPWizard.single_path_parts two_discrete (Some (0, 0, 0));
     parts !! 2%nat) ≠ Some (str 20)
  ∧ (parts ← MCNPWizard.single_path_parts two_discrete (Some (1, 1, 0));
     parts !! 2%nat) = Some "20[1 1 0]"
  ∧ (parts ← MCNPWizard.single_path_parts two_discrete (Some (1, 1, 0));
     parts !! 2%nat) ≠ Some (str 20).
Proof.
  split_and!; try (vm_compute; reflexivity); vm_compute; discriminate.
Qed.

(** * Further properties of the grid selector *)

(** ** Selecting all, toggling *)

(** A loop that only adds cells: a cell is in the result when it was
    there before or one of the rounds added it. *)
Lemma elem_of_foldl_add {A : Type} (F : gset cell → A → gset cell)
    (P : A → cell → Prop) (xs : list A) :
  (∀ sel x c, c ∈ F sel x ↔ c ∈ sel ∨ P x c) →
  ∀ sel c, c ∈ foldl F sel xs ↔ c ∈ sel ∨ ∃ x, x ∈ xs ∧ P x c.
Proof.
  intros HF. induction xs as [|x xs IH]; intros sel c; simpl.
  - split; [by left|]. intros [?|(x & Hx & _)]; [done|]. by apply elem_of_nil in Hx.
  - rewrite IH, HF. split.
    + intros [[?|?]|(y & Hy & HP)].
      * by left.
      * right. exists x. split; [left|done].
      * right. exists y. split; [by right|done].
    + intros [?|(y & [->|Hy]%elem_of_cons & HP)].
      * by left; left.
      * by left; right.
      * right. by exists y.
Qed.

Lemma elem_of_range (x lo hi : Z) : x ∈ range lo (hi + 1) ↔ lo ≤ x ≤ hi.
Proof. unfold range. rewrite elem_of_seqZ. lia. Qed.

(** The three nested loops of the key [a]. *)
Lemma elem_of_select_all (self : VisualLatticeSelector.t) (c : cell) :
  c ∈ VisualLatticeSelector.selected (VisualLatticeSelector.select_all self)
  ↔ c ∈ VisualLatticeSelector.selected self ∨ in_box (selector_bounds self) c.
Proof.
  unfold VisualLatticeSelector.select_all; simpl.
  rewrite (elem_of_foldl_add _
    (λ i c, ∃ j, j ∈ range (VisualLatticeSelector.j_bounds self).1
                          ((VisualLatticeSelector.j_bounds self).2 + 1)
            ∧ ∃ k, k ∈ range (VisualLatticeSelector.k_bounds self).1
                             ((VisualLatticeSelector.k_bounds self).2 + 1)
                   ∧ c = (i, j, k))).
  - unfold in_box, selector_bounds; simpl.
    setoid_rewrite elem_of_range. destruct c as [[ci cj] ck].
    unfold cell_i, cell_j, cell_k; simpl. split.
    + intros [?|(i & Hi & j & Hj & k & Hk & [= -> -> ->])]; [by left|by right].
    + intros [?|(Hi & Hj & Hk)]; [by left|right].
      exists ci. split; [done|]. exists cj. split; [done|]. by exists ck.
  - intros sel i c'.
    apply (elem_of_foldl_add _
      (λ j c, ∃ k, k ∈ range (VisualLatticeSelector.k_bounds self).1
                             ((VisualLatticeSelector.k_bounds self).2 + 1)
                   ∧ c = (i, j, k))).
    intros sel' j c''.
    apply (elem_of_foldl_add _ (λ k c, c = (i, j, k))).
    intros sel'' k c'''.
    rewrite elem_of_union, elem_of_singleton. tauto.
Qed.

(** X1: the key [a] adds exactly the cells of the selector's bounds: a
    cell is selected afterwards when it was selected before or lies
    within the bounds on all three axes; nothing is ever removed, and
    pressing [a] a second time changes nothing. *)
Theorem select_all_adds_the_box (self : VisualLatticeSelector.t) :
  (∀ c, c ∈ VisualLatticeSelector.selected
              (VisualLatticeSelector.select_all self)
        ↔ c ∈ VisualLatticeSelector.selected self
          ∨ in_box (selector_bounds self) c)
  ∧ VisualLatticeSelector.selected self
    ⊆ VisualLatticeSelector.selected (VisualLatticeSelector.select_all self)
  ∧ VisualLatticeSelector.select_all (VisualLatticeSelector.select_all self)
    = VisualLatticeSelector.select_all self.
Proof.
  split_and!.
  - apply elem_of_select_all.
  - intros c Hc. apply elem_of_select_all. by left.
  - assert (Hsel :
      VisualLatticeSelector.selected
        (VisualLatticeSelector.select_all
           (VisualLatticeSelector.select_all self))
      = VisualLatticeSelector.selected
          (VisualLatticeSelector.select_all self)).
    { apply set_eq. intros c. rewrite !elem_of_select_all.
      change (selector_bounds (VisualLatticeSelector.select_all self))
        with (selector_bounds self).
      tauto. }
    destruct self as [lt inf ib jb kb ck ci cj sel].
    unfold VisualLatticeSelector.select_all, VisualLatticeSelector.set_selected
      in *.
    simpl in *. f_equal. exact Hsel.
Qed.

(** X2: toggling the cell under the cursor twice gives back the selector
    as it was. *)
Theorem toggle_twice (self : VisualLatticeSelector.t) :
  VisualLatticeSelector.toggle (VisualLatticeSelector.toggle self) = self.
Proof.
  destruct self as [lt inf ib jb kb ck ci cj sel].
  unfold VisualLatticeSelector.toggle; simpl.
  destruct (decide ((ci, cj, ck) ∈ sel)) as [Hin|Hout].
  - rewrite (bool_decide_true _ Hin); simpl.
    rewrite bool_decide_false.
    + unfold VisualLatticeSelector.set_selected; simpl. f_equal.
      apply set_eq. intros c.
      rewrite elem_of_union, elem_of_difference, elem_of_singleton.
      destruct (decide (c = (ci, cj, ck))) as [->|]; tauto.
    + rewrite elem_of_difference, elem_of_singleton. tauto.
  - rewrite (bool_decide_false _ Hout); simpl.
    rewrite bool_decide_true.
    + unfold VisualLatticeSelector.set_selected; simpl. f_equal.
      apply set_eq. intros c.
      rewrite elem_of_difference, elem_of_union, elem_of_singleton.
      split; [tauto|]. intros Hc. split; [by right|]. by intros ->.
    + rewrite elem_of_union, elem_of_singleton. by left.
Qed.

(** ** The selection stays within the bounds *)

Lemma toggle_selection_within bounds self :
  within bounds self → selection_within bounds self →
  selection_within bounds (VisualLatticeSelector.toggle self).
Proof.
  intros (_ & _ & _ & Hi & Hj & Hk) Hsel c.
  unfold VisualLatticeSelector.toggle. case_bool_decide; simpl.
  - intros [Hc _]%elem_of_difference. by apply Hsel.
  - intros [->%elem_of_singleton|Hc]%elem_of_union; [|by apply Hsel].
    by unfold in_box, cell_i, cell_j, cell_k.
Qed.

Lemma select_all_selection_within bounds self :
  within bounds self → selection_within bounds self →
  selection_within bounds (VisualLatticeSelector.select_all self).
Proof.
  intros (Hi & Hj & Hk & _) Hsel c [Hc|Hc]%elem_of_select_all.
  - by apply Hsel.
  - unfold selector_bounds in Hc. rewrite Hi, Hj, Hk in Hc.
    by destruct bounds as [[??]?].
Qed.

Lemma hex_move_selected self direction :
  VisualLatticeSelector.selected (VisualLatticeSelector.hex_move self direction)
  = VisualLatticeSelector.selected self.
Proof.
  unfold VisualLatticeSelector.hex_move.
  destruct (VisualLatticeSelector._get_hex_neighbor _ _ _) as [new_i new_j].
  by destruct (_ && _).
Qed.

Lemma on_key_selection_within bounds self key self' :
  within bounds self → selection_within bounds self →
  VisualLatticeSelector.on_key self key = VisualLatticeSelector.Continue self' →
  selection_within bounds self'.
Proof.
  intros Hin Hsel Hkey. unfold VisualLatticeSelector.on_key in Hkey.
  repeat match type of Hkey with
         | (if ?c then _ else _) = _ => destruct c
         end;
    try discriminate; injection Hkey as <-;
    first [ done
          | by apply toggle_selection_within
          | by apply select_all_selection_within
          | by (unfold selection_within; rewrite hex_move_selected)
          | by (intros c Hc; apply elem_of_empty in Hc) ].
Qed.

Lemma run_selection_within bounds (keys : list Z) : ∀ self,
  within bounds self → selection_within bounds self →
  selection_within bounds (final_state (VisualLatticeSelector.run self keys)).
Proof.
  induction keys as [keys IH] using (induction_ltof1 _ length).
  unfold ltof in IH. intros self Hin Hsel.
  destruct keys as [|key rest]; [done|]. simpl.
  destruct (VisualLatticeSelector.on_key self key) as [result| |self'] eqn:Hkey.
  - done.
  - destruct rest as [|key' rest']; [done|]. apply IH; [simpl; lia|done..].
  - apply IH; [simpl; lia| |].
    + by eapply on_key_within.
    + by eapply on_key_selection_within.
Qed.

(** X3: with [min <= max] on each axis, every selected cell lies within
    the bounds at the end of every sequence of key presses: nothing
    outside the bounds (for an infinite lattice, the viewing window) can
    be selected. *)
Theorem selection_stays_in_bounds
    (lattice_type : Z) (bounds : (Z * Z) * (Z * Z) * (Z * Z))
    (is_infinite : bool) (keys : list Z) :
  valid_bounds bounds →
  selection_within bounds
    (final_state
       (VisualLatticeSelector.run
          (VisualLatticeSelector.__init__ lattice_type bounds is_infinite)
          keys)).
Proof.
  intros Hvalid. apply run_selection_within.
  - by apply init_within.
  - intros c Hc. destruct bounds as [[??]?]. by apply elem_of_empty in Hc.
Qed.

Lemma selection_stays_in_bounds_witness :
  valid_bounds ((0, 2), (0, 2), (0, 1))
  ∧ selection_within ((0, 2), (0, 2), (0, 1))
      (final_state
         (VisualLatticeSelector.run
            (VisualLatticeSelector.__init__ 1 ((0, 2), (0, 2), (0, 1)) false)
            [ord " "; KEY_RIGHT; KEY_RIGHT; KEY_RIGHT; ord " "; ord "]"; ord "a"])).
Proof.
  assert (Hvalid : valid_bounds ((0, 2), (0, 2), (0, 1)))
    by (unfold valid_bounds; simpl; lia).
  split; [exact Hvalid|].
  exact (selection_stays_in_bounds 1 ((0, 2), (0, 2), (0, 1)) false
    [ord " "; KEY_RIGHT; KEY_RIGHT; KEY_RIGHT; ord " "; ord "]"; ord "a"]
    Hvalid).
Defined.

(** ** What finalisation returns *)

Lemma get_size_make_spec_dim (lo hi : Z) :
  LatticeSpec.get_size (Some (VisualLatticeSelector.make_spec_dim lo hi))
  = hi - lo + 1.
Proof.
  unfold VisualLatticeSelector.make_spec_dim.
  destruct (Z.eqb_spec lo hi); simpl; lia.
Qed.

(** X4: the spec finalisation creates names exactly as many lattice
    elements as there are selected cells, whichever of the two forms it
    takes. *)
Theorem created_spec_counts_selection (self : VisualLatticeSelector.t)
    (spec : LatticeSpec.t) :
  VisualLatticeSelector._create_lattice_spec self = Some spec →
  LatticeSpec.element_count spec
  = Z.of_nat (size (VisualLatticeSelector.selected self)).
Proof.
  unfold VisualLatticeSelector._create_lattice_spec.
  destruct (elements (VisualLatticeSelector.selected self))
    as [|cell0 cells] eqn:Hl; [done|].
  pose proof (is_selection_contiguous_iff self cell0 cells Hl) as Hiff.
  destruct (VisualLatticeSelector._is_selection_contiguous self).
  - destruct (proj1 Hiff eq_refl) as [Hsize _]. rewrite Hsize.
    unfold box_volume.
    destruct (VisualLatticeSelector.bounding_box cell0 cells)
      as [[[i_min i_max] [j_min j_max]] [k_min k_max]]; cbn [fst snd].
    intros [= <-]. unfold LatticeSpec.element_count.
    cbn [LatticeSpec.elements LatticeSpec.i LatticeSpec.j LatticeSpec.k].
    by rewrite !get_size_make_spec_dim.
  - intros [= <-]. unfold LatticeSpec.element_count; simpl.
    unfold sorted. rewrite (merge_sort_Permutation cell_le (cell0 :: cells)).
    unfold size, set_size; simpl. by rewrite Hl.
Qed.

Lemma created_spec_counts_selection_witness :
  VisualLatticeSelector._create_lattice_spec two_cells
  = Some (Discrete [(0, 0, 0); (2, 1, 0)])
  ∧ LatticeSpec.element_count (Discrete [(0, 0, 0); (2, 1, 0)])
    = Z.of_nat (size (VisualLatticeSelector.selected two_cells)).
Proof.
  assert (Hspec : VisualLatticeSelector._create_lattice_spec two_cells
                  = Some (Discrete [(0, 0, 0); (2, 1, 0)]))
    by (vm_compute; reflexivity).
  split; [exact Hspec|].
  exact (created_spec_counts_selection two_cells _ Hspec).
Defined.

(** A run returns only from the branch of some key. *)
Lemma run_returned (keys : list Z) : ∀ self result final,
  VisualLatticeSelector.run self keys
  = VisualLatticeSelector.Returned result final →
  ∃ key, VisualLatticeSelector.on_key final key
         = VisualLatticeSelector.Return result.
Proof.
  induction keys as [keys IH] using (induction_ltof1 _ length).
  unfold ltof in IH. intros self result final.
  destruct keys as [|key rest]; [done|]. simpl.
  destruct (VisualLatticeSelector.on_key self key) as [r| |self'] eqn:Hkey.
  - intros [= <- <-]. by exists key.
  - destruct rest as [|key' rest']; [done|]. apply IH. simpl; lia.
  - apply IH. simpl; lia.
Qed.

Lemma on_key_return_some self key spec :
  VisualLatticeSelector.on_key self key
  = VisualLatticeSelector.Return (Some spec) →
  VisualLatticeSelector._create_lattice_spec self = Some spec.
Proof.
  intros Hkey. unfold VisualLatticeSelector.on_key in Hkey.
  repeat match type of Hkey with
         | (if ?c then _ else _) = _ => destruct c
         end;
    try discriminate. by injection Hkey.
Qed.

Lemma dimension_within_make_spec_dim (lo hi a b : Z) :
  lo ≤ a → a ≤ b → b ≤ hi →
  dimension_within lo hi (Some (VisualLatticeSelector.make_spec_dim a b)).
Proof.
  intros ???. unfold VisualLatticeSelector.make_spec_dim.
  destruct (Z.eqb_spec a b); simpl; lia.
Qed.

Lemma created_spec_within bounds self spec :
  selection_within bounds self →
  VisualLatticeSelector._create_lattice_spec self = Some spec →
  spec_within bounds spec.
Proof.
  intros Hsel. unfold VisualLatticeSelector._create_lattice_spec.
  destruct (elements (VisualLatticeSelector.selected self))
    as [|cell0 cells] eqn:Hl; [done|].
  destruct (bounding_box_correct _ _ _ Hl)
    as (Hall & (c1 & Hc1 & Hi1) & (c2 & Hc2 & Hi2) & (c3 & Hc3 & Hj1)
        & (c4 & Hc4 & Hj2) & (c5 & Hc5 & Hk1) & (c6 & Hc6 & Hk2)).
  destruct (VisualLatticeSelector._is_selection_contiguous self).
  - destruct (VisualLatticeSelector.bounding_box cell0 cells)
      as [[[i_min i_max] [j_min j_max]] [k_min k_max]]; simpl in *.
    intros [= <-]. unfold spec_within; simpl.
    apply Hsel in Hc1 as Hb1. apply Hsel in Hc2 as Hb2.
    apply Hsel in Hc3 as Hb3. apply Hsel in Hc4 as Hb4.
    apply Hsel in Hc5 as Hb5. apply Hsel in Hc6 as Hb6.
    apply Hall in Hc1. unfold in_box in *; simpl in *.
    split_and!; try (apply dimension_within_make_spec_dim; lia).
    intros c Hc. by apply elem_of_nil in Hc.
  - intros [= <-]. unfold spec_within; simpl. split_and!; try done.
    intros c Hc. change (c ∈ merge_sort cell_le (cell0 :: cells)) in Hc.
    rewrite (merge_sort_Permutation cell_le (cell0 :: cells)) in Hc.
    apply Hsel, elem_of_elements. by rewrite Hl.
Qed.

(** X5: whatever keys are pressed, a spec the selector returns was
    created from the selection it ends with, is well formed, and names
    only positions within the bounds the selector was given. *)
Theorem returned_spec_within_bounds
    (lattice_type : Z) (bounds : (Z * Z) * (Z * Z) * (Z * Z))
    (is_infinite : bool) (keys : list Z)
    (spec : LatticeSpec.t) (final : VisualLatticeSelector.t) :
  valid_bounds bounds →
  VisualLatticeSelector.run
    (VisualLatticeSelector.__init__ lattice_type bounds is_infinite) keys
  = VisualLatticeSelector.Returned (Some spec) final →
  VisualLatticeSelector._create_lattice_spec final = Some spec
  ∧ well_formed spec
  ∧ spec_within bounds spec.
Proof.
  intros Hvalid Hrun.
  destruct (run_returned _ _ _ _ Hrun) as [key Hkey].
  apply on_key_return_some in Hkey. split_and!; [done|..].
  - by eapply create_lattice_spec_well_formed.
  - apply (created_spec_within bounds final); [|done].
    pose proof (run_selection_within bounds keys
      (VisualLatticeSelector.__init__ lattice_type bounds is_infinite)) as H.
    rewrite Hrun in H. apply H.
    + by apply init_within.
    + intros c Hc. destruct bounds as [[??]?]. by apply elem_of_empty in Hc.
Qed.

Lemma returned_spec_within_bounds_witness :
  let start := VisualLatticeSelector.__init__ 1 ((0, 2), (0, 2), (0, 0)) false in
  let keys := [ord " "; KEY_RIGHT; ord " "; ord "d"] in
  valid_bounds ((0, 2), (0, 2), (0, 0))
  ∧ ∃ final,
      VisualLatticeSelector.run start keys
      = VisualLatticeSelector.Returned
          (Some (Contiguous (Range 1 2) (Single 1) (Single 0))) final
      ∧ spec_within ((0, 2), (0, 2), (0, 0))
          (Contiguous (Range 1 2) (Single 1) (Single 0)).
Proof.
  intros start keys.
  assert (Hvalid : valid_bounds ((0, 2), (0, 2), (0, 0)))
    by (unfold valid_bounds; simpl; lia).
  split; [exact Hvalid|].
  exists (final_state (VisualLatticeSelector.run start keys)).
  assert (Hrun : VisualLatticeSelector.run start keys
    = VisualLatticeSelector.Returned
        (Some (Contiguous (Range 1 2) (Single 1) (Single 0)))
        (final_state (VisualLatticeSelector.run start keys)))
    by (vm_compute; reflexivity).
  split; [exact Hrun|].
  exact (proj2 (proj2 (returned_spec_within_bounds 1 ((0, 2), (0, 2), (0, 0))
    false keys _ _ Hvalid Hrun))).
Defined.

(** X6: once the loop has returned, the keys that follow are never read:
    a longer key sequence gives the same result and the same selector. *)
Theorem run_stops_at_return (keys more : list Z)
    (self : VisualLatticeSelector.t) (result : option LatticeSpec.t)
    (final : VisualLatticeSelector.t) :
  VisualLatticeSelector.run self keys
  = VisualLatticeSelector.Returned result final →
  VisualLatticeSelector.run self (keys ++ more)
  = VisualLatticeSelector.Returned result final.
Proof.
  revert self.
  induction keys as [keys IH] using (induction_ltof1 _ length).
  unfold ltof in IH. intros self.
  destruct keys as [|key rest]; [done|]. simpl.
  destruct (VisualLatticeSelector.on_key self key) as [r| |self'] eqn:Hkey.
  - done.
  - destruct rest as [|key' rest']; [done|]. simpl. apply IH. simpl; lia.
  - apply IH. simpl; lia.
Qed.

Lemma run_stops_at_return_witness :
  let start := VisualLatticeSelector.__init__ 2 ((0, 2), (0, 2), (0, 0)) false in
  VisualLatticeSelector.run start [KEY_UP; ord "q"]
  = VisualLatticeSelector.Returned None
      (VisualLatticeSelector.hex_move start "NW")
  ∧ VisualLatticeSelector.run start ([KEY_UP; ord "q"] ++ [ord "a"; ord "d"])
    = VisualLatticeSelector.Returned None
        (VisualLatticeSelector.hex_move start "NW").
Proof.
  intros start.
  assert (Hrun : VisualLatticeSelector.run start [KEY_UP; ord "q"]
    = VisualLatticeSelector.Returned None
        (VisualLatticeSelector.hex_move start "NW")) by reflexivity.
  split; [exact Hrun|].
  exact (run_stops_at_return _ [ord "a"; ord "d"] _ _ _ Hrun).
Defined.

(** ** Selecting all, then finalising *)

Lemma elem_of_box_cells (b : (Z * Z) * (Z * Z) * (Z * Z)) (c : cell) :
  c ∈ box_cells b ↔ in_box b c.
Proof.
  unfold box_cells, in_box. destruct c as [[ci cj] ck].
  unfold cell_i, cell_j, cell_k; simpl. split.
  - intros (i & (j & (k & Hc & Hk)%list_elem_of_bind & Hj)%list_elem_of_bind
              & Hi)%list_elem_of_bind.
    apply list_elem_of_singleton in Hc as [= -> -> ->].
    by rewrite elem_of_range in Hi, Hj, Hk.
  - intros (Hi & Hj & Hk).
    apply list_elem_of_bind. exists ci. rewrite elem_of_range. split; [|done].
    apply list_elem_of_bind. exists cj. rewrite elem_of_range. split; [|done].
    apply list_elem_of_bind. exists ck. rewrite elem_of_range. split; [|done].
    by apply list_elem_of_singleton.
Qed.

Lemma NoDup_box_cells (b : (Z * Z) * (Z * Z) * (Z * Z)) : NoDup (box_cells b).
Proof.
  unfold box_cells, range.
  apply NoDup_bind; [| |apply NoDup_seqZ].
  - intros i1 i2 c _ _
      (j1 & (k1 & ->%list_elem_of_singleton & _)%list_elem_of_bind & _)%list_elem_of_bind
      (j2 & (k2 & [= -> _ _]%list_elem_of_singleton & _)%list_elem_of_bind & _)%list_elem_of_bind.
    done.
  - intros i _. apply NoDup_bind; [| |apply NoDup_seqZ].
    + intros j1 j2 c _ _
        (k1 & ->%list_elem_of_singleton & _)%list_elem_of_bind
        (k2 & [= -> _]%list_elem_of_singleton & _)%list_elem_of_bind.
      done.
    + intros j _. apply NoDup_bind; [| |apply NoDup_seqZ].
      * by intros k1 k2 c _ _ ->%list_elem_of_singleton
          [= ->]%list_elem_of_singleton.
      * intros k _. apply NoDup_singleton.
Qed.

Lemma length_bind_const {A B : Type} (f : A → list B) (n : nat) (l : list A) :
  (∀ x, length (f x) = n) → length (l ≫= f) = (length l * n)%nat.
Proof.
  intros Hf. induction l as [|x l IH]; [done|].
  change ((x :: l) ≫= f) with (f x ++ (l ≫= f)).
  rewrite length_app, IH, Hf. simpl. lia.
Qed.

Lemma length_box_cells (b : (Z * Z) * (Z * Z) * (Z * Z)) :
  valid_bounds b → Z.of_nat (length (box_cells b)) = box_volume b.
Proof.
  intros (Hi & Hj & Hk). unfold box_cells, box_volume, range.
  rewrite (length_bind_const _
    (Z.to_nat (b.1.2.2 + 1 - b.1.2.1) * Z.to_nat (b.2.2 + 1 - b.2.1))).
  - rewrite length_seqZ. lia.
  - intros i. rewrite (length_bind_const _ (Z.to_nat (b.2.2 + 1 - b.2.1))).
    + by rewrite length_seqZ.
    + intros j. rewrite (length_bind_const _ 1%nat); [|done].
      rewrite length_seqZ. lia.
Qed.

(** A selection that is exactly the cells of a box with [min <= max] on
    each axis has the volume of the box as its size. *)
Lemma size_of_box (sel : gset cell) (b : (Z * Z) * (Z * Z) * (Z * Z)) :
  valid_bounds b → (∀ c, c ∈ sel ↔ in_box b c) →
  Z.of_nat (size sel) = box_volume b.
Proof.
  intros Hvalid Hsel.
  assert (Heq : sel = list_to_set (box_cells b)).
  { apply set_eq. intros c.
    by rewrite Hsel, elem_of_list_to_set, elem_of_box_cells. }
  rewrite Heq, size_list_to_set by apply NoDup_box_cells.
  by apply length_box_cells.
Qed.

(** The bounding box of a selection that is exactly the cells of a box
    is that box. *)
Lemma bounding_box_of_box (sel : gset cell)
    (b bb : (Z * Z) * (Z * Z) * (Z * Z)) :
  valid_bounds b → (∀ c, c ∈ sel ↔ in_box b c) →
  is_bounding_box sel bb → bb = b.
Proof.
  destruct b as [[[i_lo i_hi] [j_lo j_hi]] [k_lo k_hi]].
  destruct bb as [[[i_min i_max] [j_min j_max]] [k_min k_max]].
  unfold valid_bounds, is_bounding_box; simpl.
  intros (Hi & Hj & Hk) Hsel
    (Hall & (c1 & Hc1 & Hi1) & (c2 & Hc2 & Hi2) & (c3 & Hc3 & Hj1)
     & (c4 & Hc4 & Hj2) & (c5 & Hc5 & Hk1) & (c6 & Hc6 & Hk2)).
  apply Hsel in Hc1, Hc2, Hc3, Hc4, Hc5, Hc6.
  assert (Hlo : in_box (i_min, i_max, (j_min, j_max), (k_min, k_max))
                  (i_lo, j_lo, k_lo)).
  { apply Hall, Hsel. unfold in_box, cell_i, cell_j, cell_k; simpl. lia. }
  assert (Hhi : in_box (i_min, i_max, (j_min, j_max), (k_min, k_max))
                  (i_hi, j_hi, k_hi)).
  { apply Hall, Hsel. unfold in_box, cell_i, cell_j, cell_k; simpl. lia. }
  unfold in_box, cell_i, cell_j, cell_k in *; simpl in *.
  repeat f_equal; lia.
Qed.

Lemma create_lattice_spec_of_box (self : VisualLatticeSelector.t)
    (b : (Z * Z) * (Z * Z) * (Z * Z)) :
  valid_bounds b →
  (∀ c, c ∈ VisualLatticeSelector.selected self ↔ in_box b c) →
  VisualLatticeSelector._create_lattice_spec self
  = Some (Contiguous (axis_dimension b.1.1.1 b.1.1.2)
                     (axis_dimension b.1.2.1 b.1.2.2)
                     (axis_dimension b.2.1 b.2.2)).
Proof.
  intros Hvalid Hsel.
  destruct (elements (VisualLatticeSelector.selected self))
    as [|cell0 cells] eqn:Hl.
  { apply elements_empty_inv in Hl.
    assert (Hcorner : (b.1.1.1, b.1.2.1, b.2.1)
                      ∈ VisualLatticeSelector.selected self).
    { destruct Hvalid as (? & ? & ?). apply Hsel.
      unfold in_box, cell_i, cell_j, cell_k; simpl. lia. }
    rewrite Hl in Hcorner. by apply elem_of_empty in Hcorner. }
  pose proof (bounding_box_correct _ _ _ Hl) as Hbb.
  apply (bounding_box_of_box _ b) in Hbb; [|done..].
  assert (Hfill : VisualLatticeSelector._is_selection_contiguous self = true).
  { apply (is_selection_contiguous_iff self cell0 cells Hl). rewrite Hbb.
    split; [by apply size_of_box|]. intros c. apply Hsel. }
  unfold VisualLatticeSelector._create_lattice_spec.
  rewrite Hl, Hfill, Hbb.
  destruct b as [[[i_lo i_hi] [j_lo j_hi]] [k_lo k_hi]]; simpl.
  by rewrite !make_spec_dim_axis.
Qed.

Lemma get_size_axis_dimension (lo hi : Z) :
  LatticeSpec.get_size (Some (axis_dimension lo hi)) = hi - lo + 1.
Proof. unfold axis_dimension. case_decide; simpl; lia. Qed.

Lemma select_all_is_the_box bounds self :
  within bounds self → selection_within bounds self →
  ∀ c, c ∈ VisualLatticeSelector.selected
             (VisualLatticeSelector.select_all self)
       ↔ in_box bounds c.
Proof.
  intros (Hi & Hj & Hk & _) Hsel c. rewrite elem_of_select_all.
  unfold selector_bounds. rewrite Hi, Hj, Hk.
  destruct bounds as [[??]?]; simpl. split; [|by right].
  intros [Hc|Hc]; [by apply Hsel|done].
Qed.

(** X7: selecting all and finalising (the keys [a], [d]) returns the
    contiguous spec of the whole bounds, one axis at a time [Single]
    where min = max and [Range min max] otherwise, and its element count
    is the volume of the bounds; this holds from any selector whose
    cursor and selection lie within bounds with [min <= max]. *)
Theorem select_all_then_done (bounds : (Z * Z) * (Z * Z) * (Z * Z))
    (self : VisualLatticeSelector.t) (rest : list Z) :
  valid_bounds bounds → within bounds self → selection_within bounds self →
  let whole := Contiguous (axis_dimension bounds.1.1.1 bounds.1.1.2)
                          (axis_dimension bounds.1.2.1 bounds.1.2.2)
                          (axis_dimension bounds.2.1 bounds.2.2) in
  VisualLatticeSelector.run self (ord "a" :: ord "d" :: rest)
  = VisualLatticeSelector.Returned (Some whole)
      (VisualLatticeSelector.select_all self)
  ∧ LatticeSpec.element_count whole = box_volume bounds.
Proof.
  intros Hvalid Hin Hsel whole.
  pose proof (select_all_is_the_box bounds self Hin Hsel) as Hbox.
  pose proof (create_lattice_spec_of_box _ bounds Hvalid Hbox) as Hspec.
  split.
  - change (VisualLatticeSelector.run self (ord "a" :: ord "d" :: rest))
      with (VisualLatticeSelector.run
              (VisualLatticeSelector.select_all self) (ord "d" :: rest)).
    simpl. rewrite on_key_done, bool_decide_false, Hspec; [done|].
    intros Hsize. pose proof (size_of_box _ bounds Hvalid Hbox) as Hvol.
    assert (0 < box_volume bounds).
    { unfold box_volume. destruct Hvalid as (? & ? & ?).
      repeat apply Z.mul_pos_pos; lia. }
    rewrite Hsize in Hvol. lia.
  - unfold whole, LatticeSpec.element_count, Contiguous.
    cbn [LatticeSpec.elements LatticeSpec.i LatticeSpec.j LatticeSpec.k].
    by rewrite !get_size_axis_dimension.
Qed.

Lemma select_all_then_done_witness :
  let bounds := ((0, 2), (0, 1), (3, 3)) in
  let fresh := VisualLatticeSelector.__init__ 1 bounds false in
  valid_bounds bounds
  ∧ VisualLatticeSelector.run fresh [ord "a"; ord "d"]
    = VisualLatticeSelector.Returned
        (Some (Contiguous (Range 0 2) (Range 0 1) (Single 3)))
        (VisualLatticeSelector.select_all fresh)
  ∧ LatticeSpec.element_count (Contiguous (Range 0 2) (Range 0 1) (Single 3))
    = 6.
Proof.
  intros bounds fresh.
  assert (Hvalid : valid_bounds bounds) by (unfold valid_bounds; simpl; lia).
  assert (Hin : within bounds fresh) by apply (init_within 1 bounds false Hvalid).
  assert (Hsel : selection_within bounds fresh).
  { intros c Hc. by apply elem_of_empty in Hc. }
  split; [exact Hvalid|].
  exact (select_all_then_done bounds fresh [] Hvalid Hin Hsel).
Defined.

(** X8: when the size guard lets bounds with [min <= max] pass without
    asking the operator, selecting all selects the volume of the bounds,
    at most 2000 cells, and a layer has at most 400 cells. *)
Theorem size_guard_limits_select_all
    (lattice_type : Z) (bounds : (Z * Z) * (Z * Z) * (Z * Z))
    (is_infinite : bool) :
  valid_bounds bounds →
  MCNPWizard._validate_visual_selector_size bounds false = true →
  let everything :=
    VisualLatticeSelector.selected
      (VisualLatticeSelector.select_all
         (VisualLatticeSelector.__init__ lattice_type bounds is_infinite)) in
  Z.of_nat (size everything) = box_volume bounds
  ∧ box_volume bounds ≤ 2000
  ∧ (bounds.1.1.2 - bounds.1.1.1 + 1) * (bounds.1.2.2 - bounds.1.2.1 + 1) ≤ 400.
Proof.
  intros Hvalid Hguard everything. split.
  - apply size_of_box; [done|]. apply select_all_is_the_box.
    + by apply init_within.
    + intros c Hc. destruct bounds as [[??]?]. by apply elem_of_empty in Hc.
  - unfold MCNPWizard._validate_visual_selector_size in Hguard.
    destruct bounds as [[[i_lo i_hi] [j_lo j_hi]] [k_lo k_hi]].
    unfold box_volume; simpl in *.
    destruct (Z.ltb_spec 400 ((i_hi - i_lo + 1) * (j_hi - j_lo + 1)));
      [done|].
    destruct (Z.ltb_spec 2000
      ((i_hi - i_lo + 1) * (j_hi - j_lo + 1) * (k_hi - k_lo + 1))); [done|].
    split; done.
Qed.

Lemma size_guard_limits_select_all_witness :
  let bounds := ((-5, 5), (-4, 4), (0, 2)) in
  valid_bounds bounds
  ∧ MCNPWizard._validate_visual_selector_size bounds false = true
  ∧ Z.of_nat (size (VisualLatticeSelector.selected
       (VisualLatticeSelector.select_all
          (VisualLatticeSelector.__init__ 2 bounds false)))) = 297.
Proof.
  intros bounds.
  assert (Hvalid : valid_bounds bounds) by (unfold valid_bounds; simpl; lia).
  split_and!; [exact Hvalid|reflexivity|].
  exact (proj1 (size_guard_limits_select_all 2 bounds false Hvalid eq_refl)).
Defined.

(** ** Hexagonal neighbours *)

(** X9: the six hexagonal directions lead to six different cells, none
    of them the starting cell, each at most one step away on either
    axis; any other direction string leaves the position unchanged. *)
Theorem hex_neighbors_distinct_adjacent (i j : Z) :
  NoDup ((i, j) :: (hex_step (i, j) <$> ["E"; "W"; "NE"; "NW"; "SE"; "SW"]))
  ∧ (∀ direction,
       let p := hex_step (i, j) direction in
       -1 ≤ p.1 - i ≤ 1 ∧ -1 ≤ p.2 - j ≤ 1)
  ∧ (∀ direction,
       direction ∉ ["E"; "W"; "NE"; "NW"; "SE"; "SW"] →
       hex_step (i, j) direction = (i, j)).
Proof.
  unfold hex_step, VisualLatticeSelector._get_hex_neighbor. split_and!.
  - simpl. destruct (j `mod` 2 =? 1);
      repeat (apply NoDup_cons; split;
              [rewrite ?elem_of_cons, elem_of_nil;
               intros H; repeat destruct H as [H|H];
               try done; injection H; lia|]);
      apply NoDup_nil_2.
  - intros direction. simpl.
    repeat match goal with
           | |- context [if ?c then _ else _] => destruct c
           end; simpl; lia.
  - intros direction Hother. simpl.
    rewrite !elem_of_cons, elem_of_nil in Hother.
    repeat match goal with
           | |- context [String.eqb direction ?s] =>
               destruct (String.eqb_spec direction s) as [->|_]; [tauto|]
           end.
    done.
Qed.

(** * Further properties of the path builder *)

Lemma find_of_existsb (P : Node.t → bool) (stack : list Node.t) :
  existsb P stack = true → ∃ node, find P stack = Some node ∧ P node = true.
Proof.
  induction stack as [|x stack IH]; simpl; [done|].
  destruct (P x) eqn:HP; simpl; [by exists x|apply IH].
Qed.

Lemma find_none_of_existsb (P : Node.t → bool) (stack : list Node.t) :
  existsb P stack = false → find P stack = None.
Proof.
  induction stack as [|x stack IH]; simpl; [done|].
  destruct (P x); simpl; [done|apply IH].
Qed.

Lemma non_contiguous_lattice_spec (node : Node.t) :
  MCNPWizard.non_contiguous_lattice node = true →
  ∃ spec els, Node.lattice_spec node = Some spec
              ∧ LatticeSpec.elements spec = Some els.
Proof.
  unfold MCNPWizard.non_contiguous_lattice, LatticeSpec.is_non_contiguous.
  destruct (Node.is_lattice node); [|done].
  destruct (Node.lattice_spec node) as [spec|]; [|done].
  destruct (LatticeSpec.elements spec) as [els|] eqn:Hels; [|done].
  intros _. by exists spec, els.
Qed.

(** The union built from the node the search finds. *)
Lemma build_union_paths_found (self : MCNPWizard.t) (target : Node.t)
    (above : list Node.t) (node : Node.t) (spec : LatticeSpec.t) :
  MCNPWizard.universe_stack self = target :: above →
  find MCNPWizard.non_contiguous_lattice (MCNPWizard.universe_stack self)
  = Some node →
  Node.lattice_spec node = Some spec →
  MCNPWizard._build_union_paths self
  = Some ("( " +:+ join " "
       ((λ element,
          "( " +:+ join " < " (str (Node.cell_id target)
             :: (MCNPWizard.node_part (Some element) <$> above)) +:+ " )")
        <$> LatticeSpec.get_all_elements spec) +:+ " )").
Proof.
  intros Hstack Hfind Hspec. unfold MCNPWizard._build_union_paths.
  rewrite Hfind, Hspec; simpl.
  by rewrite (union_paths_mapM self target above _ Hstack).
Qed.

(** The tally path of a non-empty stack, in closed form. *)
Lemma build_tally_path_cons (self : MCNPWizard.t) (target : Node.t)
    (above : list Node.t) :
  MCNPWizard.universe_stack self = target :: above →
  (MCNPWizard._has_non_contiguous_lattice self = false
   ∧ MCNPWizard._build_tally_path self
     = Some ("( " +:+ join " < " (str (Node.cell_id target)
                :: (MCNPWizard.node_part None <$> above)) +:+ " )"))
  ∨ (∃ spec,
       MCNPWizard._has_non_contiguous_lattice self = true
       ∧ MCNPWizard._build_tally_path self
         = Some ("( " +:+ join " "
              ((λ element,
                 "( " +:+ join " < " (str (Node.cell_id target)
                    :: (MCNPWizard.node_part (Some element) <$> above))
                      +:+ " )")
               <$> LatticeSpec.get_all_elements spec) +:+ " )")).
Proof.
  intros Hstack. unfold MCNPWizard._build_tally_path. rewrite Hstack.
  destruct (MCNPWizard._has_non_contiguous_lattice self) eqn:Hhas.
  - right. apply find_of_existsb in Hhas as (node & Hfind & HP).
    apply non_contiguous_lattice_spec in HP as (spec & els & Hspec & _).
    exists spec. split; [done|].
    by apply (build_union_paths_found self target above node).
  - left. split; [done|]. unfold MCNPWizard._build_single_path.
    destruct self as [stack tc]; simpl in Hstack; subst stack.
    by rewrite single_path_parts_cons.
Qed.

(** X10: [_build_tally_path] never raises: it returns a string for every
    stack, for the empty stack the target cell in padded parentheses,
    although [_build_single_path] and [_build_union_paths] themselves
    fail with an index error on an empty stack. *)
Theorem build_tally_path_never_raises :
  (∀ self, is_Some (MCNPWizard._build_tally_path self))
  ∧ (∀ target_cell,
       MCNPWizard._build_tally_path (MCNPWizard.mk [] (Some target_cell))
       = Some ("( " +:+ str target_cell +:+ " )"))
  ∧ (∀ target_cell lattice_element,
       MCNPWizard._build_single_path (MCNPWizard.mk [] target_cell)
         lattice_element = None)
  ∧ (∀ target_cell,
       MCNPWizard._build_union_paths (MCNPWizard.mk [] target_cell) = None).
Proof.
  split_and!; try done.
  intros self.
  destruct (MCNPWizard.universe_stack self) as [|target above] eqn:Hstack.
  - unfold MCNPWizard._build_tally_path. by rewrite Hstack.
  - destruct (build_tally_path_cons self target above Hstack)
      as [[_ ->]|(spec & _ & ->)]; done.
Qed.

(** ** No comma in a path *)

Lemma comma_free_join (sep : string) (parts : list string) :
  comma_free sep → Forall comma_free parts → comma_free (join sep parts).
Proof.
  intros Hsep Hparts. unfold join.
  induction Hparts as [|part parts Hpart Hparts IH]; [comma_free_literal|].
  destruct parts as [|part' parts]; [done|].
  change (comma_free (part +:+ sep +:+ String.concat sep (part' :: parts))).
  by repeat apply comma_free_app.
Qed.

Lemma comma_free_single_index (element : cell) :
  comma_free (LatticeSpec.to_mcnp_single_index element).
Proof.
  unfold LatticeSpec.to_mcnp_single_index.
  repeat apply comma_free_app; try apply comma_free_str; comma_free_literal.
Qed.

Lemma comma_free_node_part (lattice_element : option cell) (node : Node.t) :
  comma_free (MCNPWizard.node_part lattice_element node).
Proof.
  unfold MCNPWizard.node_part.
  destruct (Node.is_lattice node); [|apply comma_free_str].
  destruct (Node.lattice_spec node) as [spec|]; [|apply comma_free_str].
  assert (Hrange : comma_free
    (if LatticeSpec.is_contiguous spec
     then str (Node.cell_id node) +:+ LatticeSpec.to_mcnp_string spec
     else str (Node.cell_id node))).
  { unfold LatticeSpec.to_mcnp_string.
    destruct (LatticeSpec.is_contiguous spec); [|apply comma_free_str].
    repeat apply comma_free_app;
      try apply comma_free_str; try apply comma_free_format_dimension;
      comma_free_literal. }
  destruct (LatticeSpec.is_non_contiguous spec); [|done].
  destruct lattice_element as [element|]; [|done].
  apply comma_free_app; [apply comma_free_str|apply comma_free_single_index].
Qed.

Lemma comma_free_path (target : Node.t) (above : list Node.t)
    (lattice_element : option cell) :
  comma_free (join " < " (str (Node.cell_id target)
                :: (MCNPWizard.node_part lattice_element <$> above))).
Proof.
  apply comma_free_join; [comma_free_literal|].
  constructor; [apply comma_free_str|].
  apply Forall_fmap, Forall_forall. intros node _. apply comma_free_node_part.
Qed.

(** X11: no comma occurs anywhere in a tally path, whatever the stack:
    identifiers, index tokens and ranges are separated by spaces,
    colons and the path separator only. *)
Theorem tally_path_has_no_comma (self : MCNPWizard.t) (path : string) :
  MCNPWizard._build_tally_path self = Some path → comma_free path.
Proof.
  destruct (MCNPWizard.universe_stack self) as [|target above] eqn:Hstack.
  - unfold MCNPWizard._build_tally_path. rewrite Hstack. intros [= <-].
    repeat apply comma_free_app; try comma_free_literal.
    destruct (MCNPWizard.target_cell self); [apply comma_free_str|].
    comma_free_literal.
  - destruct (build_tally_path_cons self target above Hstack)
      as [[_ ->]|(spec & _ & ->)]; intros [= <-].
    + repeat apply comma_free_app; try comma_free_literal.
      apply comma_free_path.
    + repeat apply comma_free_app; try comma_free_literal.
      apply comma_free_join; [comma_free_literal|].
      apply Forall_fmap, Forall_forall. intros element _. simpl.
      repeat apply comma_free_app; try comma_free_literal.
      apply comma_free_path.
Qed.

Lemma tally_path_has_no_comma_witness :
  MCNPWizard._build_tally_path corner_pins
  = Some "( ( 101 < 50[0 0 0] < 1 ) ( 101 < 50[9 9 0] < 1 ) ( 101 < 50[0 9 0] < 1 ) ( 101 < 50[9 0 0] < 1 ) )"
  ∧ comma_free "( ( 101 < 50[0 0 0] < 1 ) ( 101 < 50[9 9 0] < 1 ) ( 101 < 50[0 9 0] < 1 ) ( 101 < 50[9 0 0] < 1 ) )".
Proof.
  assert (Hpath : MCNPWizard._build_tally_path corner_pins
    = Some "( ( 101 < 50[0 0 0] < 1 ) ( 101 < 50[9 9 0] < 1 ) ( 101 < 50[0 9 0] < 1 ) ( 101 < 50[9 0 0] < 1 ) )")
    by (vm_compute; reflexivity).
  split; [exact Hpath|].
  exact (tally_path_has_no_comma corner_pins _ Hpath).
Defined.

(** ** One token per node, bottom-up *)

Lemma string_app_nil_r (s : string) : s +:+ "" = s.
Proof.
  induction s as [|c s IH]; [done|].
  change (String c (s +:+ "") = String c s). by rewrite IH.
Qed.

(** X12: a single path has one token per node of the stack, in stack
    order; the token of a node starts with the decimal cell identifier
    of that node, and is exactly that identifier for the node at index
    0, for a node that is not a lattice and for a node without a spec. *)
Theorem single_path_one_token_per_node (self : MCNPWizard.t)
    (lattice_element : option cell) (parts : list string) :
  MCNPWizard.single_path_parts self lattice_element = Some parts →
  MCNPWizard._build_single_path self lattice_element
  = Some (join " < " parts)
  ∧ length parts = length (MCNPWizard.universe_stack self)
  ∧ ∀ (p : nat) node,
      MCNPWizard.universe_stack self !! p = Some node →
      (∃ suffix, parts !! p = Some (str (Node.cell_id node) +:+ suffix))
      ∧ (p = 0%nat ∨ Node.is_lattice node = false
         ∨ Node.lattice_spec node = None →
         parts !! p = Some (str (Node.cell_id node))).
Proof.
  intros Hparts. split.
  { unfold MCNPWizard._build_single_path. by rewrite Hparts. }
  destruct self as [[|target above] tc]; [done|].
  rewrite single_path_parts_cons in Hparts. injection Hparts as <-.
  split; [simpl; by rewrite length_fmap|].
  intros [|p] node Hnode; simpl in *.
  - injection Hnode as ->. split; [|done].
    exists "". by rewrite (string_app_nil_r (str (Node.cell_id node))).
  - rewrite list_lookup_fmap, Hnode; simpl.
    unfold MCNPWizard.node_part. split.
    + destruct (Node.is_lattice node), (Node.lattice_spec node) as [spec|];
        try (exists ""; by rewrite string_app_nil_r).
      destruct (LatticeSpec.is_non_contiguous spec), lattice_element,
        (LatticeSpec.is_contiguous spec); eauto;
        exists ""; by rewrite string_app_nil_r.
    + intros [?|[Hlat|Hspec]]; [done| |].
      * by rewrite Hlat.
      * rewrite Hspec. by destruct (Node.is_lattice node).
Qed.

Lemma single_path_one_token_per_node_witness :
  MCNPWizard.single_path_parts single_pin None
  = Some ["101"; "50[3 4 0]"; "1"]
  ∧ MCNPWizard._build_single_path single_pin None
    = Some (join " < " ["101"; "50[3 4 0]"; "1"])
  ∧ length ["101"; "50[3 4 0]"; "1"]
    = length (MCNPWizard.universe_stack single_pin).
Proof.
  assert (Hparts : MCNPWizard.single_path_parts single_pin None
                   = Some ["101"; "50[3 4 0]"; "1"])
    by (vm_compute; reflexivity).
  split; [exact Hparts|].
  destruct (single_path_one_token_per_node single_pin None _ Hparts)
    as (Hpath & Hlen & _).
  split; [exact Hpath|exact Hlen].
Defined.

(** ** The source distribution cards *)

Lemma wrapped_paths_mapM (wrap : string → string) (self : MCNPWizard.t)
    (target : Node.t) (above : list Node.t) (els : list cell) :
  MCNPWizard.universe_stack self = target :: above →
  mapM (λ element,
     single_path ← MCNPWizard._build_single_path self (Some element);
     Some (wrap single_path)) els
  = Some ((λ element,
       wrap (join " < " (str (Node.cell_id target)
          :: (MCNPWizard.node_part (Some element) <$> above))))
     <$> els).
Proof.
  intros Hstack. apply mapM_Some, Forall2_fmap_r, Forall_Forall2_diag.
  apply Forall_forall. intros element _.
  unfold MCNPWizard._build_single_path.
  destruct self as [stack tc]; simpl in Hstack; subst stack.
  by rewrite single_path_parts_cons.
Qed.

Lemma concat_empty_cons (s : string) (l : list string) :
  String.concat "" (s :: l) = s +:+ String.concat "" l.
Proof.
  destruct l as [|s' l]; [|reflexivity].
  simpl. by rewrite string_app_nil_r.
Qed.

(** The loop that appends each path to the SI card after a space. *)
Lemma foldl_si_card (paths : list string) : ∀ si_card,
  foldl (λ si_card path, si_card +:+ " " +:+ path) si_card paths
  = si_card +:+ String.concat "" ((λ path, " " +:+ path) <$> paths).
Proof.
  induction paths as [|path paths IH]; intros si_card.
  - simpl. by rewrite string_app_nil_r.
  - rewrite fmap_cons, concat_empty_cons. simpl foldl. rewrite IH.
    by rewrite !string_app_assoc.
Qed.

(** X13: for a stack with a discrete lattice node, the SI card lists one
    path per element of the first such node, each built by
    [_build_single_path] for that element and wrapped in tight
    parentheses "(path)", and the SP card gives exactly one weight 1 per
    listed path. *)
Theorem si_sp_cards_one_weight_per_path (self : MCNPWizard.t) (dist_num : Z)
    (idx : nat) (node : Node.t) (spec : LatticeSpec.t) (els : list cell) :
  MCNPWizard.universe_stack self !! idx = Some node →
  Node.is_lattice node = true →
  Node.lattice_spec node = Some spec →
  LatticeSpec.elements spec = Some els →
  (∀ (n : nat) other, (n < idx)%nat →
     MCNPWizard.universe_stack self !! n = Some other →
     MCNPWizard.non_contiguous_lattice other = false) →
  ∃ paths : list string,
    Forall2 (λ element path,
               MCNPWizard._build_single_path self (Some element) = Some path)
            els paths
    ∧ MCNPWizard.si_sp_cards self dist_num
      = Some ("SI" +:+ str dist_num +:+ " L"
                +:+ String.concat "" ((λ path, " (" +:+ path +:+ ")") <$> paths),
              "SP" +:+ str dist_num +:+ " "
                +:+ join " " (replicate (length paths) "1")).
Proof.
  intros Hlook Hlat Hspec Hels Hfirst.
  destruct (MCNPWizard.universe_stack self) as [|target above] eqn:Hstack;
    [done|].
  assert (HP : MCNPWizard.non_contiguous_lattice node = true).
  { unfold MCNPWizard.non_contiguous_lattice, LatticeSpec.is_non_contiguous.
    by rewrite Hlat, Hspec, Hels. }
  exists ((λ element, join " < " (str (Node.cell_id target)
            :: (MCNPWizard.node_part (Some element) <$> above))) <$> els).
  split.
  - apply Forall2_fmap_r, Forall_Forall2_diag, Forall_forall.
    intros element _. unfold MCNPWizard._build_single_path.
    destruct self as [stack tc]; simpl in Hstack; subst stack.
    by rewrite single_path_parts_cons.
  - unfold MCNPWizard.si_sp_cards.
    rewrite (has_non_contiguous_lattice_true self idx node)
      by (by rewrite ?Hstack).
    rewrite Hstack, (find_first _ _ idx node) by done.
    simpl. rewrite Hspec; simpl.
    unfold LatticeSpec.get_all_elements. rewrite Hels.
    rewrite (wrapped_paths_mapM (λ p, "(" +:+ p +:+ ")") self target above els
               Hstack); simpl.
    rewrite foldl_si_card, <- !list_fmap_compose, !length_fmap.
    by rewrite !string_app_assoc.
Qed.

Lemma si_sp_cards_one_weight_per_path_witness :
  MCNPWizard.si_sp_cards corner_pins 1
  = Some ("SI1 L (101 < 50[0 0 0] < 1) (101 < 50[9 9 0] < 1) (101 < 50[0 9 0] < 1) (101 < 50[9 0 0] < 1)",
          "SP1 1 1 1 1")
  ∧ ∃ paths : list string,
      Forall2 (λ element path,
                 MCNPWizard._build_single_path corner_pins (Some element)
                 = Some path)
              [(0, 0, 0); (9, 9, 0); (0, 9, 0); (9, 0, 0)] paths
      ∧ MCNPWizard.si_sp_cards corner_pins 1
        = Some ("SI" +:+ str 1 +:+ " L"
                  +:+ String.concat ""
                        ((λ path, " (" +:+ path +:+ ")") <$> paths),
                "SP" +:+ str 1 +:+ " "
                  +:+ join " " (replicate (length paths) "1")).
Proof.
  split; [vm_compute; reflexivity|].
  refine (si_sp_cards_one_weight_per_path corner_pins 1 1
    (Node.mk 50 (Some 100) (Some 5) true false
       (Some (Discrete [(0, 0, 0); (9, 9, 0); (0, 9, 0); (9, 0, 0)])) None None)
    (Discrete [(0, 0, 0); (9, 9, 0); (0, 9, 0); (9, 0, 0)])
    [(0, 0, 0); (9, 9, 0); (0, 9, 0); (9, 0, 0)]
    eq_refl eq_refl eq_refl eq_refl _).
  intros n other Hn Hother.
  destruct n as [|n]; [|lia].
  injection Hother as <-. reflexivity.
Defined.

(** * Further properties of specs and nodes *)

Lemma single_element_counts_one (spec : LatticeSpec.t) :
  LatticeSpec.is_single_element spec = true →
  LatticeSpec.element_count spec = 1.
Proof.
  unfold LatticeSpec.is_single_element, LatticeSpec.element_count.
  destruct (LatticeSpec.elements spec) as [els|].
  - intros Hlen%bool_decide_eq_true. by rewrite Hlen.
  - simpl. rewrite !andb_true_iff. intros (Hi & Hj & Hk & _).
    destruct (LatticeSpec.i spec) as [[ni|li hi]|]; [|done..].
    destruct (LatticeSpec.j spec) as [[nj|lj hj]|]; [|done..].
    by destruct (LatticeSpec.k spec) as [[nk|lk hk]|].
Qed.

(** X14: the legacy [lattice_index] of a node is present only for a spec
    that is a single element, which then counts one element.  For a
    contiguous spec of three integers it is that triple; a spec with a
    range has none; and for a discrete spec of one element it is the
    triple of the three unset fields, not the element. *)
Theorem lattice_index_of_single_element (node : Node.t) :
  (∀ index, Node.lattice_index node = Some index →
     ∃ spec, Node.lattice_spec node = Some spec
             ∧ LatticeSpec.is_single_element spec = true
             ∧ LatticeSpec.element_count spec = 1
             ∧ index = (LatticeSpec.i spec, LatticeSpec.j spec,
                        LatticeSpec.k spec))
  ∧ (∀ a b c,
       Node.lattice_spec node = Some (Contiguous (Single a) (Single b) (Single c)) →
       Node.lattice_index node
       = Some (Some (Single a), Some (Single b), Some (Single c)))
  ∧ (∀ di dj dk,
       Node.lattice_spec node = Some (Contiguous di dj dk) →
       (∃ lo hi, di = Range lo hi ∨ dj = Range lo hi ∨ dk = Range lo hi) →
       Node.lattice_index node = None)
  ∧ (∀ element,
       Node.lattice_spec node = Some (Discrete [element]) →
       Node.lattice_index node = Some (None, None, None)).
Proof.
  unfold Node.lattice_index. split_and!.
  - intros index.
    destruct (Node.lattice_spec node) as [spec|]; [|done].
    destruct (LatticeSpec.is_single_element spec) eqn:Hsingle; [|done].
    intros [= <-]. exists spec. split_and!; try done.
    by apply single_element_counts_one.
  - by intros a b c ->.
  - intros di dj dk -> (lo & hi & Hrange).
    unfold LatticeSpec.is_single_element; simpl.
    destruct di, dj, dk; simpl; try done;
      by destruct Hrange as [?|[?|?]].
  - by intros element ->.
Qed.
